(** * Tower of Madness: round clock and participant session

    A shallow embedding of the two TypeScript modules of the repository:

    - the server entry point, whose [getCurrentRoundInfo] derives the round
      number, the phase and the remaining time from the UTC clock;
    - the scene entry point, whose module-level variables hold the player's
      attempt and the round state, and whose handlers ([trackPlayerHeight],
      [updateRoundTimer], [startNewRound], [endRound], [startAttempt],
      [finishAttempt], [dieAttempt] and the callbacks registered by [main])
      mutate them.

    Conventions of the embedding.

    - [Date.now()] is an integer number of milliseconds: a [Z].  Every
      handler receives one reading [now] of the clock; the source reads the
      clock a few times inside one handler, and the embedding uses the same
      reading for all of them.
    - Integer-valued JavaScript numbers (seconds since the epoch, round
      numbers, the finisher counter) are [Z]; [Math.floor (a / b)] is [Z.div]
      and [a % b] is [Z.rem] (the sign follows the dividend, as in
      JavaScript).
    - The other JavaScript numbers (heights, timers in seconds, the speed
      multiplier) are rationals [Q]: exact arithmetic, no rounding, no NaN.
    - The module-level variables are the fields of one record [Game]; a
      handler is a function [Z -> Game -> Game].  Calls into the rendering
      and transport collaborators ([generateTower], [sendPlayerFinished],
      ...) are appended to the field [effects], newest first.  Console output
      is left out.
    - [resultMessage] is a value of the type [Message], one constructor per
      literal of the source, keeping the numbers a template interpolates. *)

From Stdlib Require Import ZArith QArith Qminmax Bool List String Lia.
From Stdlib Require Import Qabs Ascii DecimalString.
Import ListNotations.

Local Open Scope Z_scope.

(** ** Comparisons on JavaScript numbers *)

(** [x < y] *)
Definition Qltb (x y : Q) : bool := negb (Qle_bool y x).

(** [Math.max(x, y)] *)
Definition Math_max (x y : Q) : Q := Qmax x y.

(** ** Server: the clock oracle *)

Module Server.

Definition ROUND_DURATION : Z := 420.
Definition BREAK_DURATION : Z := 10.
Definition TOTAL_CYCLE : Z := ROUND_DURATION + BREAK_DURATION.

(** The object literal [{ roundNumber, isBreak, remainingTime }]. *)
Record ClockInfo : Type := mkClockInfo {
  roundNumber : Z;
  isBreak : bool;
  remainingTime : Z
}.

(** The body of [getCurrentRoundInfo] after its first line, with the two
    module constants as arguments: [now] is the clock in whole seconds. *)
Definition computeRoundInfo (roundDuration breakDuration now : Z) : ClockInfo :=
  let totalCycle := roundDuration + breakDuration in
  let roundNumber := now / totalCycle in
  let cycleProgress := Z.rem now totalCycle in
  let isBreak := roundDuration <=? cycleProgress in
  let remainingTime :=
    if isBreak then totalCycle - cycleProgress
    else roundDuration - cycleProgress in
  mkClockInfo roundNumber isBreak remainingTime.

(** [getCurrentRoundInfo()], reading [dateNow] from [Date.now()]. *)
Definition getCurrentRoundInfo (dateNow : Z) : ClockInfo :=
  let now := dateNow / 1000 in
  computeRoundInfo ROUND_DURATION BREAK_DURATION now.

End Server.

(** ** Scene: data *)

Inductive AttemptState : Type :=
| NOT_STARTED
| IN_PROGRESS
| FINISHED
| DIED.

Inductive RoundState : Type :=
| ACTIVE
| ENDING
| BREAK.

(** [attemptResult: 'WIN' | 'DEATH' | null] is an [option AttemptResult]. *)
Inductive AttemptResult : Type :=
| WIN
| DEATH.

(** The values [resultMessage] takes. *)
Inductive Message : Type :=
| MsgNone                      (* the initial empty string *)
| MsgNextRoundIn10             (* set when ENDING turns to BREAK *)
| MsgNewRoundStarted           (* startNewRound *)
| MsgRoundComplete             (* endRound and the GameEnded callback *)
| MsgAlreadyFinished           (* startAttempt while FINISHED *)
| MsgGo                        (* startAttempt *)
| MsgFinished (time : Q)       (* finishAttempt, attemptTimer.toFixed(2) *)
| MsgDeath (height : Q)        (* dieAttempt, playerMaxHeight.toFixed(1) *)
| MsgNewRound                  (* the TowerReady callback *)
| MsgRoundEndedSoon.           (* the TimerUpdate callback at zero *)

(** Modelled from the spec: the entry types [LeaderboardEntry] and
    [WinnerEntry] are declared in the multiplayer module, which is not part
    of the sources at hand; the handlers below only store them. *)
Record LeaderboardEntry : Type := mkLeaderboardEntry {
  lb_playerId : string;
  lb_bestHeight : Q;
  lb_finishTime : option Q
}.

Record WinnerEntry : Type := mkWinnerEntry {
  win_playerId : string;
  win_finishTime : Q
}.

(** [RoundInfo], as the object literal of the fallback in [main] builds it. *)
Record RoundInfo : Type := mkRoundInfo {
  ri_roundNumber : Z;
  ri_isBreak : bool;
  ri_remainingTime : Q;
  ri_chunkIds : list string
}.

(** Calls into the collaborators. *)
Inductive Effect : Type :=
| SendHeightUpdate (height : Q)
| SendPlayerFinished (time height : Q)
| SendPlayerDied (height : Q)
| SendPlayerJoined (name : string)
| GenerateTower
| GenerateTowerFromServer (chunkIds : list string).

(** The module-level variables of the scene. *)
Record Game : Type := mkGame {
  playerHeight : Q;
  playerMaxHeight : Q;
  attemptState : AttemptState;
  attemptStartTime : Z;
  attemptTimer : Q;
  attemptFinishTime : Q;
  bestAttemptTime : Q;
  bestAttemptHeight : Q;
  attemptResult : option AttemptResult;
  resultMessage : Message;
  resultTimestamp : Z;
  roundState : RoundState;
  roundTimer : Q;
  roundSpeedMultiplier : Q;
  roundStartTime : Z;
  roundFinishers : Z;
  leaderboard : list LeaderboardEntry;
  roundWinners : list WinnerEntry;
  isMultiplayerMode : bool;
  lastHeightUpdateTime : Z;
  effects : list Effect
}.

Definition HEIGHT_UPDATE_INTERVAL : Z := 500.

(** The variables as their initialisers leave them; [loadTime] is the
    reading of [Date.now()] that initialises [roundStartTime]. *)
Definition initialGame (loadTime : Z) : Game :=
  {| playerHeight := 0;
     playerMaxHeight := 0;
     attemptState := NOT_STARTED;
     attemptStartTime := 0;
     attemptTimer := 0;
     attemptFinishTime := 0;
     bestAttemptTime := 0;
     bestAttemptHeight := 0;
     attemptResult := None;
     resultMessage := MsgNone;
     resultTimestamp := 0;
     roundState := ACTIVE;
     roundTimer := 420;
     roundSpeedMultiplier := 1;
     roundStartTime := loadTime;
     roundFinishers := 0;
     leaderboard := [];
     roundWinners := [];
     isMultiplayerMode := false;
     lastHeightUpdateTime := 0;
     effects := [] |}.

(** Decidable equality of the two enumerations, for the [===] tests. *)
Definition AttemptState_eqb (a b : AttemptState) : bool :=
  match a, b with
  | NOT_STARTED, NOT_STARTED | IN_PROGRESS, IN_PROGRESS
  | FINISHED, FINISHED | DIED, DIED => true
  | _, _ => false
  end.

Definition RoundState_eqb (a b : RoundState) : bool :=
  match a, b with
  | ACTIVE, ACTIVE | ENDING, ENDING | BREAK, BREAK => true
  | _, _ => false
  end.

(** [(Date.now() - since) / 1000], in seconds. *)
Definition secondsSince (now since : Z) : Q :=
  (inject_Z (now - since) / 1000)%Q.

(** ** Scene: assignments

    [set_x v s] is the state after the assignment [x = v]. *)

Definition set_playerHeight (v : Q) (s : Game) : Game :=
  mkGame v (playerMaxHeight s) (attemptState s) (attemptStartTime s)
    (attemptTimer s) (attemptFinishTime s) (bestAttemptTime s)
    (bestAttemptHeight s) (attemptResult s) (resultMessage s)
    (resultTimestamp s) (roundState s) (roundTimer s)
    (roundSpeedMultiplier s) (roundStartTime s) (roundFinishers s)
    (leaderboard s) (roundWinners s) (isMultiplayerMode s)
    (lastHeightUpdateTime s) (effects s).

Definition set_playerMaxHeight (v : Q) (s : Game) : Game :=
  mkGame (playerHeight s) v (attemptState s) (attemptStartTime s)
    (attemptTimer s) (attemptFinishTime s) (bestAttemptTime s)
    (bestAttemptHeight s) (attemptResult s) (resultMessage s)
    (resultTimestamp s) (roundState s) (roundTimer s)
    (roundSpeedMultiplier s) (roundStartTime s) (roundFinishers s)
    (leaderboard s) (roundWinners s) (isMultiplayerMode s)
    (lastHeightUpdateTime s) (effects s).

Definition set_attemptState (v : AttemptState) (s : Game) : Game :=
  mkGame (playerHeight s) (playerMaxHeight s) v (attemptStartTime s)
    (attemptTimer s) (attemptFinishTime s) (bestAttemptTime s)
    (bestAttemptHeight s) (attemptResult s) (resultMessage s)
    (resultTimestamp s) (roundState s) (roundTimer s)
    (roundSpeedMultiplier s) (roundStartTime s) (roundFinishers s)
    (leaderboard s) (roundWinners s) (isMultiplayerMode s)
    (lastHeightUpdateTime s) (effects s).

Definition set_attemptStartTime (v : Z) (s : Game) : Game :=
  mkGame (playerHeight s) (playerMaxHeight s) (attemptState s) v
    (attemptTimer s) (attemptFinishTime s) (bestAttemptTime s)
    (bestAttemptHeight s) (attemptResult s) (resultMessage s)
    (resultTimestamp s) (roundState s) (roundTimer s)
    (roundSpeedMultiplier s) (roundStartTime s) (roundFinishers s)
    (leaderboard s) (roundWinners s) (isMultiplayerMode s)
    (lastHeightUpdateTime s) (effects s).

Definition set_attemptTimer (v : Q) (s : Game) : Game :=
  mkGame (playerHeight s) (playerMaxHeight s) (attemptState s)
    (attemptStartTime s) v (attemptFinishTime s) (bestAttemptTime s)
    (bestAttemptHeight s) (attemptResult s) (resultMessage s)
    (resultTimestamp s) (roundState s) (roundTimer s)
    (roundSpeedMultiplier s) (roundStartTime s) (roundFinishers s)
    (leaderboard s) (roundWinners s) (isMultiplayerMode s)
    (lastHeightUpdateTime s) (effects s).

Definition set_attemptFinishTime (v : Q) (s : Game) : Game :=
  mkGame (playerHeight s) (playerMaxHeight s) (attemptState s)
    (attemptStartTime s) (attemptTimer s) v (bestAttemptTime s)
    (bestAttemptHeight s) (attemptResult s) (resultMessage s)
    (resultTimestamp s) (roundState s) (roundTimer s)
    (roundSpeedMultiplier s) (roundStartTime s) (roundFinishers s)
    (leaderboard s) (roundWinners s) (isMultiplayerMode s)
    (lastHeightUpdateTime s) (effects s).

Definition set_bestAttemptTime (v : Q) (s : Game) : Game :=
  mkGame (playerHeight s) (playerMaxHeight s) (attemptState s)
    (attemptStartTime s) (attemptTimer s) (attemptFinishTime s) v
    (bestAttemptHeight s) (attemptResult s) (resultMessage s)
    (resultTimestamp s) (roundState s) (roundTimer s)
    (roundSpeedMultiplier s) (roundStartTime s) (roundFinishers s)
    (leaderboard s) (roundWinners s) (isMultiplayerMode s)
    (lastHeightUpdateTime s) (effects s).

Definition set_bestAttemptHeight (v : Q) (s : Game) : Game :=
  mkGame (playerHeight s) (playerMaxHeight s) (attemptState s)
    (attemptStartTime s) (attemptTimer s) (attemptFinishTime s)
    (bestAttemptTime s) v (attemptResult s) (resultMessage s)
    (resultTimestamp s) (roundState s) (roundTimer s)
    (roundSpeedMultiplier s) (roundStartTime s) (roundFinishers s)
    (leaderboard s) (roundWinners s) (isMultiplayerMode s)
    (lastHeightUpdateTime s) (effects s).

Definition set_attemptResult (v : option AttemptResult) (s : Game) : Game :=
  mkGame (playerHeight s) (playerMaxHeight s) (attemptState s)
    (attemptStartTime s) (attemptTimer s) (attemptFinishTime s)
    (bestAttemptTime s) (bestAttemptHeight s) v (resultMessage s)
    (resultTimestamp s) (roundState s) (roundTimer s)
    (roundSpeedMultiplier s) (roundStartTime s) (roundFinishers s)
    (leaderboard s) (roundWinners s) (isMultiplayerMode s)
    (lastHeightUpdateTime s) (effects s).

Definition set_resultMessage (v : Message) (s : Game) : Game :=
  mkGame (playerHeight s) (playerMaxHeight s) (attemptState s)
    (attemptStartTime s) (attemptTimer s) (attemptFinishTime s)
    (bestAttemptTime s) (bestAttemptHeight s) (attemptResult s) v
    (resultTimestamp s) (roundState s) (roundTimer s)
    (roundSpeedMultiplier s) (roundStartTime s) (roundFinishers s)
    (leaderboard s) (roundWinners s) (isMultiplayerMode s)
    (lastHeightUpdateTime s) (effects s).

Definition set_resultTimestamp (v : Z) (s : Game) : Game :=
  mkGame (playerHeight s) (playerMaxHeight s) (attemptState s)
    (attemptStartTime s) (attemptTimer s) (attemptFinishTime s)
    (bestAttemptTime s) (bestAttemptHeight s) (attemptResult s)
    (resultMessage s) v (roundState s) (roundTimer s)
    (roundSpeedMultiplier s) (roundStartTime s) (roundFinishers s)
    (leaderboard s) (roundWinners s) (isMultiplayerMode s)
    (lastHeightUpdateTime s) (effects s).

Definition set_roundState (v : RoundState) (s : Game) : Game :=
  mkGame (playerHeight s) (playerMaxHeight s) (attemptState s)
    (attemptStartTime s) (attemptTimer s) (attemptFinishTime s)
    (bestAttemptTime s) (bestAttemptHeight s) (attemptResult s)
    (resultMessage s) (resultTimestamp s) v (roundTimer s)
    (roundSpeedMultiplier s) (roundStartTime s) (roundFinishers s)
    (leaderboard s) (roundWinners s) (isMultiplayerMode s)
    (lastHeightUpdateTime s) (effects s).

Definition set_roundTimer (v : Q) (s : Game) : Game :=
  mkGame (playerHeight s) (playerMaxHeight s) (attemptState s)
    (attemptStartTime s) (attemptTimer s) (attemptFinishTime s)
    (bestAttemptTime s) (bestAttemptHeight s) (attemptResult s)
    (resultMessage s) (resultTimestamp s) (roundState s) v
    (roundSpeedMultiplier s) (roundStartTime s) (roundFinishers s)
    (leaderboard s) (roundWinners s) (isMultiplayerMode s)
    (lastHeightUpdateTime s) (effects s).

Definition set_roundSpeedMultiplier (v : Q) (s : Game) : Game :=
  mkGame (playerHeight s) (playerMaxHeight s) (attemptState s)
    (attemptStartTime s) (attemptTimer s) (attemptFinishTime s)
    (bestAttemptTime s) (bestAttemptHeight s) (attemptResult s)
    (resultMessage s) (resultTimestamp s) (roundState s) (roundTimer s) v
    (roundStartTime s) (roundFinishers s) (leaderboard s) (roundWinners s)
    (isMultiplayerMode s) (lastHeightUpdateTime s) (effects s).

Definition set_roundStartTime (v : Z) (s : Game) : Game :=
  mkGame (playerHeight s) (playerMaxHeight s) (attemptState s)
    (attemptStartTime s) (attemptTimer s) (attemptFinishTime s)
    (bestAttemptTime s) (bestAttemptHeight s) (attemptResult s)
    (resultMessage s) (resultTimestamp s) (roundState s) (roundTimer s)
    (roundSpeedMultiplier s) v (roundFinishers s) (leaderboard s)
    (roundWinners s) (isMultiplayerMode s) (lastHeightUpdateTime s)
    (effects s).

Definition set_roundFinishers (v : Z) (s : Game) : Game :=
  mkGame (playerHeight s) (playerMaxHeight s) (attemptState s)
    (attemptStartTime s) (attemptTimer s) (attemptFinishTime s)
    (bestAttemptTime s) (bestAttemptHeight s) (attemptResult s)
    (resultMessage s) (resultTimestamp s) (roundState s) (roundTimer s)
    (roundSpeedMultiplier s) (roundStartTime s) v (leaderboard s)
    (roundWinners s) (isMultiplayerMode s) (lastHeightUpdateTime s)
    (effects s).

Definition set_leaderboard (v : list LeaderboardEntry) (s : Game) : Game :=
  mkGame (playerHeight s) (playerMaxHeight s) (attemptState s)
    (attemptStartTime s) (attemptTimer s) (attemptFinishTime s)
    (bestAttemptTime s) (bestAttemptHeight s) (attemptResult s)
    (resultMessage s) (resultTimestamp s) (roundState s) (roundTimer s)
    (roundSpeedMultiplier s) (roundStartTime s) (roundFinishers s) v
    (roundWinners s) (isMultiplayerMode s) (lastHeightUpdateTime s)
    (effects s).

Definition set_roundWinners (v : list WinnerEntry) (s : Game) : Game :=
  mkGame (playerHeight s) (playerMaxHeight s) (attemptState s)
    (attemptStartTime s) (attemptTimer s) (attemptFinishTime s)
    (bestAttemptTime s) (bestAttemptHeight s) (attemptResult s)
    (resultMessage s) (resultTimestamp s) (roundState s) (roundTimer s)
    (roundSpeedMultiplier s) (roundStartTime s) (roundFinishers s)
    (leaderboard s) v (isMultiplayerMode s) (lastHeightUpdateTime s)
    (effects s).

Definition set_isMultiplayerMode (v : bool) (s : Game) : Game :=
  mkGame (playerHeight s) (playerMaxHeight s) (attemptState s)
    (attemptStartTime s) (attemptTimer s) (attemptFinishTime s)
    (bestAttemptTime s) (bestAttemptHeight s) (attemptResult s)
    (resultMessage s) (resultTimestamp s) (roundState s) (roundTimer s)
    (roundSpeedMultiplier s) (roundStartTime s) (roundFinishers s)
    (leaderboard s) (roundWinners s) v (lastHeightUpdateTime s) (effects s).

Definition set_lastHeightUpdateTime (v : Z) (s : Game) : Game :=
  mkGame (playerHeight s) (playerMaxHeight s) (attemptState s)
    (attemptStartTime s) (attemptTimer s) (attemptFinishTime s)
    (bestAttemptTime s) (bestAttemptHeight s) (attemptResult s)
    (resultMessage s) (resultTimestamp s) (roundState s) (roundTimer s)
    (roundSpeedMultiplier s) (roundStartTime s) (roundFinishers s)
    (leaderboard s) (roundWinners s) (isMultiplayerMode s) v (effects s).

Definition set_effects (v : list Effect) (s : Game) : Game :=
  mkGame (playerHeight s) (playerMaxHeight s) (attemptState s)
    (attemptStartTime s) (attemptTimer s) (attemptFinishTime s)
    (bestAttemptTime s) (bestAttemptHeight s) (attemptResult s)
    (resultMessage s) (resultTimestamp s) (roundState s) (roundTimer s)
    (roundSpeedMultiplier s) (roundStartTime s) (roundFinishers s)
    (leaderboard s) (roundWinners s) (isMultiplayerMode s)
    (lastHeightUpdateTime s) v.

(** A call into a collaborator. *)
Definition emit (e : Effect) (s : Game) : Game :=
  set_effects (e :: effects s) s.

(** ** Scene: player tracking *)

(** [trackPlayerHeight].  [sample] is [None] when the player entity has no
    [Transform], and the [y] coordinate of its position otherwise. *)
Definition trackPlayerHeight (now : Z) (sample : option Q) (s : Game) : Game :=
  match sample with
  | None => s
  | Some y =>
    let s := set_playerHeight y s in
    if AttemptState_eqb (attemptState s) IN_PROGRESS then
      let s :=
        if Qltb (playerMaxHeight s) (playerHeight s)
        then set_playerMaxHeight (playerHeight s) s
        else s in
      let s := set_attemptTimer (secondsSince now (attemptStartTime s)) s in
      if isMultiplayerMode s then
        if HEIGHT_UPDATE_INTERVAL <=? now - lastHeightUpdateTime s then
          let s := emit (SendHeightUpdate (playerMaxHeight s)) s in
          set_lastHeightUpdateTime now s
        else s
      else s
    else s
  end.

(** ** Scene: round management (single player) *)

Definition startNewRound (now : Z) (s : Game) : Game :=
  let s := set_roundState ACTIVE s in
  let s := set_roundTimer 420 s in
  let s := set_roundSpeedMultiplier 1 s in
  let s := set_roundStartTime now s in
  let s := set_roundFinishers 0 s in
  let s := set_roundWinners [] s in
  let s := set_leaderboard [] s in
  let s := set_attemptState NOT_STARTED s in
  let s := set_attemptTimer 0 s in
  let s := set_playerMaxHeight 0 s in
  let s := set_attemptResult None s in
  let s := set_resultMessage MsgNewRoundStarted s in
  let s := set_resultTimestamp now s in
  emit GenerateTower s.

Definition endRound (now : Z) (s : Game) : Game :=
  let s := set_roundState ENDING s in
  let s := set_resultMessage MsgRoundComplete s in
  set_resultTimestamp now s.

(** [updateRoundTimer], one tick of the round timer system. *)
Definition updateRoundTimer (now : Z) (s : Game) : Game :=
  if RoundState_eqb (roundState s) ENDING then
    let elapsedSinceEnd := secondsSince now (resultTimestamp s) in
    if Qle_bool 3 elapsedSinceEnd then
      let s := set_roundState BREAK s in
      let s := set_resultMessage MsgNextRoundIn10 s in
      set_resultTimestamp now s
    else s
  else if RoundState_eqb (roundState s) BREAK then
    if negb (isMultiplayerMode s) then
      let breakElapsed := secondsSince now (resultTimestamp s) in
      if Qle_bool 10 breakElapsed then startNewRound now s else s
    else s
  else if RoundState_eqb (roundState s) ACTIVE
          && negb (isMultiplayerMode s) then
    let elapsed := secondsSince now (roundStartTime s) in
    let adjustedElapsed := (elapsed * roundSpeedMultiplier s)%Q in
    let s := set_roundTimer (Math_max 0 (420 - adjustedElapsed)%Q) s in
    if Qle_bool (roundTimer s) 0 then endRound now s else s
  else s.

(** ** Scene: player attempt functions *)

(** Called when the player enters TriggerStart. *)
Definition startAttempt (now : Z) (s : Game) : Game :=
  if negb (RoundState_eqb (roundState s) ACTIVE) then s
  else if AttemptState_eqb (attemptState s) FINISHED then
    let s := set_resultMessage MsgAlreadyFinished s in
    set_resultTimestamp now s
  else
    let s := set_attemptState IN_PROGRESS s in
    let s := set_attemptStartTime now s in
    let s := set_attemptTimer 0 s in
    let s := set_playerMaxHeight (playerHeight s) s in
    let s := set_attemptResult None s in
    let s := set_resultMessage MsgGo s in
    set_resultTimestamp now s.

(** Called when the player reaches TriggerEnd. *)
Definition finishAttempt (now : Z) (s : Game) : Game :=
  if negb (AttemptState_eqb (attemptState s) IN_PROGRESS) then s
  else if negb (RoundState_eqb (roundState s) ACTIVE) then s
  else
    let s := set_attemptState FINISHED s in
    let s := set_attemptFinishTime (attemptTimer s) s in
    let s := set_attemptResult (Some WIN) s in
    let s := set_resultMessage (MsgFinished (attemptTimer s)) s in
    let s := set_resultTimestamp now s in
    let s :=
      if Qltb (attemptFinishTime s) (bestAttemptTime s)
         || Qeq_bool (bestAttemptTime s) 0
      then set_bestAttemptTime (attemptFinishTime s) s
      else s in
    let s :=
      if Qltb (bestAttemptHeight s) (playerMaxHeight s)
      then set_bestAttemptHeight (playerMaxHeight s) s
      else s in
    let s := set_roundFinishers (roundFinishers s + 1) s in
    let s := set_roundSpeedMultiplier (inject_Z (roundFinishers s + 1)) s in
    if isMultiplayerMode s
    then emit (SendPlayerFinished (attemptFinishTime s) (playerMaxHeight s)) s
    else s.

(** Called when the player enters TriggerDeath. *)
Definition dieAttempt (now : Z) (s : Game) : Game :=
  if negb (AttemptState_eqb (attemptState s) IN_PROGRESS) then s
  else
    let s := set_attemptState DIED s in
    let s := set_attemptResult (Some DEATH) s in
    let s := set_resultMessage (MsgDeath (playerMaxHeight s)) s in
    let s := set_resultTimestamp now s in
    let s :=
      if Qltb (bestAttemptHeight s) (playerMaxHeight s)
      then set_bestAttemptHeight (playerMaxHeight s) s
      else s in
    if isMultiplayerMode s
    then emit (SendPlayerDied (playerMaxHeight s)) s
    else s.

(** ** Scene: [main] *)

(** The object literal of the fallback in [main], built when [getRoundInfo]
    throws; [dateNow] is the reading of [Date.now()]. *)
Definition fallbackRoundInfo (dateNow : Z) : RoundInfo :=
  let now := dateNow / 1000 in
  let roundNumber := now / 430 in
  {| ri_roundNumber := roundNumber;
     ri_isBreak := false;
     ri_remainingTime := 420;
     ri_chunkIds := ["Chunk01"; "Chunk02"; "Chunk03"]%string |}.

(** The initialisation block of [main].  [initMultiplayer] is the outcome of
    the call of that name ([None] when it throws) and [getRoundInfo] the
    outcome of the call of that name ([None] when it throws); both functions
    live in the multiplayer module. *)
Definition main (now : Z) (initMultiplayer : option bool)
    (getRoundInfo : option RoundInfo) (s : Game) : Game :=
  let s :=
    match initMultiplayer with
    | Some serverConnected =>
      let s := set_isMultiplayerMode true s in
      if serverConnected then emit (SendPlayerJoined "Player") s else s
    | None => set_isMultiplayerMode false s
    end in
  let initialRound :=
    match getRoundInfo with
    | Some info => info
    | None => fallbackRoundInfo now
    end in
  let s :=
    set_roundState (if ri_isBreak initialRound then BREAK else ACTIVE) s in
  let s := set_roundTimer (ri_remainingTime initialRound) s in
  emit (GenerateTowerFromServer (ri_chunkIds initialRound)) s.

(** The callback given to [setOnServerTowerReady]. *)
Definition onServerTowerReady (now : Z) (chunkIds : list string)
    (s : Game) : Game :=
  let s := emit (GenerateTowerFromServer chunkIds) s in
  let s := set_attemptState NOT_STARTED s in
  let s := set_attemptTimer 0 s in
  let s := set_playerMaxHeight 0 s in
  let s := set_attemptResult None s in
  let s := set_roundState ACTIVE s in
  let s := set_resultMessage MsgNewRound s in
  set_resultTimestamp now s.

(** The callback given to [setOnTimerUpdate]. *)
Definition onTimerUpdate (now : Z) (remaining speedMult : Q)
    (s : Game) : Game :=
  let s := set_roundTimer remaining s in
  let s := set_roundSpeedMultiplier speedMult s in
  if Qle_bool remaining 0 && RoundState_eqb (roundState s) ACTIVE then
    let s := set_roundState BREAK s in
    let s := set_resultMessage MsgRoundEndedSoon s in
    set_resultTimestamp now s
  else s.

(** The callback given to [setOnRoundChanged]. *)
Definition onRoundChanged (info : RoundInfo) (s : Game) : Game :=
  if ri_isBreak info then set_roundState BREAK s else s.

(** The callback given to [setOnLeaderboardUpdate]. *)
Definition onLeaderboardUpdate (players : list LeaderboardEntry)
    (s : Game) : Game :=
  set_leaderboard players s.

(** The callback given to [setOnGameEnded]. *)
Definition onGameEnded (now : Z) (winners : list WinnerEntry)
    (s : Game) : Game :=
  let s := set_roundState ENDING s in
  let s := set_roundWinners winners s in
  let s := set_resultMessage MsgRoundComplete s in
  set_resultTimestamp now s.

(** ** Scene: the session as a transition system

    What can happen to a running session: the two per-frame systems, the
    three zone entries the trigger detection system reports (it calls the
    handler once per entry), and the broadcasts of the server.  [main]
    registers the tower, timer and round callbacks only in multiplayer mode,
    so the corresponding broadcasts reach no handler otherwise. *)
Inductive Event : Type :=
| TrackPlayerHeight (sample : option Q)
| UpdateRoundTimer
| StartZone
| FinishZone
| DeathZone
| TowerReady (chunkIds : list string)
| TimerUpdate (remaining speedMult : Q)
| RoundChanged (info : RoundInfo)
| LeaderboardUpdate (players : list LeaderboardEntry)
| GameEnded (winners : list WinnerEntry).

Definition step (now : Z) (e : Event) (s : Game) : Game :=
  match e with
  | TrackPlayerHeight sample => trackPlayerHeight now sample s
  | UpdateRoundTimer => updateRoundTimer now s
  | StartZone => startAttempt now s
  | FinishZone => finishAttempt now s
  | DeathZone => dieAttempt now s
  | TowerReady chunkIds =>
    if isMultiplayerMode s then onServerTowerReady now chunkIds s else s
  | TimerUpdate remaining speedMult =>
    if isMultiplayerMode s then onTimerUpdate now remaining speedMult s
    else s
  | RoundChanged info =>
    if isMultiplayerMode s then onRoundChanged info s else s
  | LeaderboardUpdate players => onLeaderboardUpdate players s
  | GameEnded winners => onGameEnded now winners s
  end.

(** A run: the events in order, each with the clock reading at which its
    handler runs. *)
Fixpoint run (evs : list (Z * Event)) (s : Game) : Game :=
  match evs with
  | [] => s
  | (now, e) :: evs' => run evs' (step now e s)
  end.

(** The height tracking system run on a sequence of samples, each with the
    clock reading of its frame. *)
Fixpoint trackMany (samples : list (Z * option Q)) (s : Game) : Game :=
  match samples with
  | [] => s
  | (now, sample) :: samples' =>
    trackMany samples' (trackPlayerHeight now sample s)
  end.

(** ** Scenarios

    Concrete sessions, used to run the handlers on. *)

(** The tower of the fallback in [main]. *)
Definition defaultTower : list string :=
  ["Chunk01"; "Chunk02"; "Chunk03"]%string.

(** A single-player session in which the player starts at 0 s, climbs to
    5 m, finishes at 2 s (multiplier 2), and the round runs out at 210 s and
    turns to its break at 213 s. *)
Definition finishedInBreak : Game :=
  run [(0, StartZone); (1000, TrackPlayerHeight (Some 5%Q));
       (2000, FinishZone); (210000, UpdateRoundTimer);
       (213000, UpdateRoundTimer)] (initialGame 0).

(** A fresh session whose player stands at height -1 when the attempt
    starts. *)
Definition startedBelowZero : Game :=
  run [(0, TrackPlayerHeight (Some (-1)%Q)); (0, StartZone)] (initialGame 0).

(** A fresh single-player session whose player starts at 0 s and is at
    5 m one second later. *)
Definition firstClimb : Game :=
  run [(0, StartZone); (1000, TrackPlayerHeight (Some 5%Q))] (initialGame 0).

(** The session of [finishedInBreak] ten seconds into its break: the next
    round starts, and the player starts again and is at 3 m after 2 s. *)
Definition secondClimb : Game :=
  run [(223000, UpdateRoundTimer); (224000, StartZone);
       (226000, TrackPlayerHeight (Some 3%Q))] finishedInBreak.

(** ** Server: the status endpoint *)

Module Status.
Import Server.

(** [n.toString()] for an integer [n]. *)
Definition toString (n : Z) : string := NilZero.string_of_int (Z.to_int n).

(** [s.padStart(2, '0')] *)
Definition padStart2 (s : string) : string :=
  match String.length s with
  | O => "00"
  | S O => "0" ++ s
  | _ => s
  end%string.

(** The fields of the body of [GET /] that are computed from the round
    info: [roundState] and [timeRemaining]. *)
Definition roundStateName (info : ClockInfo) : string :=
  if isBreak info then "BREAK"%string else "ACTIVE"%string.

Definition timeRemaining (info : ClockInfo) : string :=
  let mins := remainingTime info / 60 in
  let secs := Z.rem (remainingTime info) 60 in
  (toString mins ++ ":" ++ padStart2 (toString secs))%string.

(** The decimal digit [d], for [0 <= d <= 9]. *)
Definition digit (d : Z) : Ascii.ascii := Ascii.ascii_of_nat (48 + Z.to_nat d).

(** The text [m:ss] of [r] seconds: the minutes as one digit, a colon and
    the seconds as two digits. *)
Definition clockText (r : Z) : string :=
  String (digit (r / 60))
    (String ":" (String (digit (r mod 60 / 10))
       (String (digit (r mod 10)) EmptyString))).

End Status.

(** ** Scene: vectors, transforms and trigger boxes

    [Vector3.create], [Vector3.Zero] and [Vector3.add] of the math library
    are written out; [Vector3.rotate] is a parameter of what uses it. *)

Record Vector3 : Type := Vector3_create { vx : Q; vy : Q; vz : Q }.

Record Quaternion : Type := Quaternion_create { qx : Q; qy : Q; qz : Q; qw : Q }.

Definition Vector3_Zero : Vector3 := Vector3_create 0 0 0.

Definition Vector3_add (a b : Vector3) : Vector3 :=
  Vector3_create (vx a + vx b)%Q (vy a + vy b)%Q (vz a + vz b)%Q.

(** Entities are numbers. *)
Definition Entity : Type := N.

(** The [Transform] component. *)
Record Transform : Type := mkTransform {
  position : Vector3;
  rotation : Quaternion;
  scale : Vector3;
  parent : option Entity
}.

(** The [Transform] components of the scene: [Transform.has e] is
    [store e <> None] and [Transform.get e] its content. *)
Definition TransformStore : Type := Entity -> option Transform.

Definition Transform_has (store : TransformStore) (e : Entity) : bool :=
  match store e with
  | Some _ => true
  | None => false
  end.

(** [isInsideBox] of [main]. *)
Definition isInsideBox (pos center scale : Vector3) : bool :=
  let dx := Qabs (vx pos - vx center) in
  let dy := Qabs (vy pos - vy center) in
  let dz := Qabs (vz pos - vz center) in
  Qle_bool dx (vx scale / 2) && Qle_bool dy (vy scale / 2)
  && Qle_bool dz (vz scale / 2).

(** The scale [main] gives a trigger: every component at least 2. *)
Definition triggerScale (scale : Vector3) : Vector3 :=
  Vector3_create (Math_max (vx scale) 2) (Math_max (vy scale) 2)
    (Math_max (vz scale) 2).

(** The set-up of one trigger in [main]; [trigger] is [None] when the scene
    has no entity of that name. *)
Definition setupTrigger (store : TransformStore) (trigger : option Entity)
    : TransformStore :=
  match trigger with
  | Some e =>
    match store e with
    | Some transform =>
      let transform' :=
        mkTransform (position transform) (rotation transform)
          (triggerScale (scale transform)) (parent transform) in
      fun e' => if N.eqb e' e then Some transform' else store e'
    | None => store
    end
  | None => store
  end.

(** The three flags of the trigger detection system. *)
Record TriggerFlags : Type := mkTriggerFlags {
  inTriggerStart : bool;
  inTriggerEnd : bool;
  inTriggerDeath : bool
}.

Section Engine.

(** [Vector3.rotate], [engine.RootEntity] and [engine.PlayerEntity]. *)
Variable rotate : Vector3 -> Quaternion -> Vector3.
Variable RootEntity : Entity.
Variable PlayerEntity : Entity.

(** [getWorldPosition].  The recursion of the source follows the parent
    chain and has no bound; [fuel] bounds its depth here, and [None] is a
    recursion that did not end within [fuel] calls. *)
Fixpoint getWorldPosition (fuel : nat) (store : TransformStore)
    (entity : Entity) : option Vector3 :=
  match fuel with
  | O => None
  | S fuel' =>
    match store entity with
    | None => Some Vector3_Zero
    | Some transform =>
      let localPos := position transform in
      match parent transform with
      | Some p =>
        if negb (N.eqb p RootEntity) && Transform_has store p then
          match store p with
          | Some parentTransform =>
            let parentRot := rotation parentTransform in
            let parentScale := scale parentTransform in
            let rotatedPos := rotate localPos parentRot in
            let scaledPos :=
              Vector3_create (vx rotatedPos * vx parentScale)%Q
                (vy rotatedPos * vy parentScale)%Q
                (vz rotatedPos * vz parentScale)%Q in
            match getWorldPosition fuel' store p with
            | Some parentWorldPos => Some (Vector3_add scaledPos parentWorldPos)
            | None => None
            end
          | None => Some localPos
          end
        else Some localPos
      | None => Some localPos
      end
    end
  end.

(** One block of the trigger detection system: [inside] is the outcome of
    [isInsideBox], [flag] the flag of the zone and [handler] the function
    called on entry.  The result is the flag and the session afterwards. *)
Definition zoneCheck (inside flag : bool) (handler : Game -> Game)
    (g : Game) : bool * Game :=
  if inside && negb flag then (true, handler g)
  else if negb inside && flag then (false, g)
  else (flag, g).

(** The trigger detection system of [main], one frame.  [triggerStart],
    [triggerEnd] and [triggerDeath] are the entities found by name ([None]
    when the scene has none). *)
Definition triggerSystem (fuel : nat) (now : Z) (store : TransformStore)
    (triggerStart triggerEnd triggerDeath : option Entity)
    (st : TriggerFlags * Game) : option (TriggerFlags * Game) :=
  match store PlayerEntity with
  | None => Some st
  | Some playerTransform =>
    let playerPos := position playerTransform in
    let '(flags, g) := st in
    let '(fStart, g) :=
      match triggerStart with
      | Some e =>
        match store e with
        | Some t =>
          zoneCheck (isInsideBox playerPos (position t) (scale t))
            (inTriggerStart flags) (startAttempt now) g
        | None => (inTriggerStart flags, g)
        end
      | None => (inTriggerStart flags, g)
      end in
    let checkEnd :=
      match triggerEnd with
      | Some e =>
        match store e with
        | Some t =>
          match getWorldPosition fuel store e with
          | Some worldPos =>
            Some (zoneCheck (isInsideBox playerPos worldPos (scale t))
                    (inTriggerEnd flags) (finishAttempt now) g)
          | None => None
          end
        | None => Some (inTriggerEnd flags, g)
        end
      | None => Some (inTriggerEnd flags, g)
      end in
    match checkEnd with
    | None => None
    | Some (fEnd, g) =>
      let '(fDeath, g) :=
        match triggerDeath with
        | Some e =>
          match store e with
          | Some t =>
            zoneCheck (isInsideBox playerPos (position t) (scale t))
              (inTriggerDeath flags) (dieAttempt now) g
          | None => (inTriggerDeath flags, g)
          end
        | None => (inTriggerDeath flags, g)
        end in
      Some (mkTriggerFlags fStart fEnd fDeath, g)
    end
  end.

(** The parent [getWorldPosition] recurses into, if any. *)
Definition climbs (store : TransformStore) (entity : Entity)
    : option Entity :=
  match store entity with
  | Some transform =>
    match parent transform with
    | Some p =>
      if negb (N.eqb p RootEntity) && Transform_has store p then Some p
      else None
    | None => None
    end
  | None => None
  end.

(** [ChainEnds store e n]: the parent chain [getWorldPosition] follows
    from [e] ends after [n] parents. *)
Inductive ChainEnds (store : TransformStore) : Entity -> nat -> Prop :=
| chain_stop (e : Entity) :
    climbs store e = None -> ChainEnds store e O
| chain_climb (e p : Entity) (n : nat) :
    climbs store e = Some p -> ChainEnds store p n ->
    ChainEnds store e (S n).

End Engine.

(** ** Scene: a concrete scene *)

(** [Vector3.rotate] at the identity rotation, the rotation of every
    transform of the scene below. *)
Definition rotateByIdentity (v : Vector3) (q : Quaternion) : Vector3 := v.

Definition identityRotation : Quaternion := Quaternion_create 0 0 0 1.

(** A scene: the root is entity 0 and the player entity 1, standing at
    (10, 1, 10).  Entity 2 is the Start trigger, a box of side 4 around
    (10, 0, 10).  Entity 3 is the Finish trigger, a box of side 4 at the
    origin of its parent 4, a chunk at (10, 0, 10).  Entity 5 is the Death
    trigger, far away.  Entities 6 and 7 are each other's parent. *)
Definition demoStore : TransformStore :=
  fun e =>
    match e with
    | 1%N => Some (mkTransform (Vector3_create 10 1 10) identityRotation
                     (Vector3_create 1 1 1) None)
    | 2%N => Some (mkTransform (Vector3_create 10 0 10) identityRotation
                     (Vector3_create 4 4 4) None)
    | 3%N => Some (mkTransform (Vector3_create 0 0 0) identityRotation
                     (Vector3_create 4 4 4) (Some 4%N))
    | 4%N => Some (mkTransform (Vector3_create 10 0 10) identityRotation
                     (Vector3_create 1 1 1) (Some 0%N))
    | 5%N => Some (mkTransform (Vector3_create 50 0 50) identityRotation
                     (Vector3_create 2 2 2) None)
    | 6%N => Some (mkTransform (Vector3_create 1 0 0) identityRotation
                     (Vector3_create 1 1 1) (Some 7%N))
    | 7%N => Some (mkTransform (Vector3_create 0 1 0) identityRotation
                     (Vector3_create 1 1 1) (Some 6%N))
    | _ => None
    end.

(** No zone entered yet. *)
Definition noFlags : TriggerFlags := mkTriggerFlags false false false.

(** The three set-up blocks of [main], in their order: Start, End and
    Death. *)
Definition setupTriggers (store : TransformStore)
    (triggerStart triggerEnd triggerDeath : option Entity) : TransformStore :=
  setupTrigger (setupTrigger (setupTrigger store triggerStart) triggerEnd)
    triggerDeath.

(** A fresh single-player session whose player starts at 0 s, is at 5 m
    one second later and back at 1 m another second later. *)
Definition climbedThenFell : Game :=
  run [(0, StartZone); (1000, TrackPlayerHeight (Some 5%Q));
       (2000, TrackPlayerHeight (Some 1%Q))] (initialGame 0).

(** Three rounds of a multiplayer session: a finish after a sample at 1 s,
    a finish in the frame of the start, and a finish after a sample at
    3 s. *)
Definition firstRound : list (Z * Event) :=
  [(0, StartZone); (1000, TrackPlayerHeight (Some 5%Q)); (2000, FinishZone)].

Definition secondRound : list (Z * Event) :=
  [(3000, TowerReady defaultTower); (4000, StartZone); (4000, FinishZone)].

Definition thirdRound : list (Z * Event) :=
  [(5000, TowerReady defaultTower); (6000, StartZone);
   (9000, TrackPlayerHeight (Some 5%Q)); (9500, FinishZone)].

(** A transform after a set-up: same position, a scale that is not
    smaller. *)
Definition widened (t t' : Transform) : Prop :=
  position t' = position t
  /\ (vx (scale t) <= vx (scale t'))%Q
  /\ (vy (scale t) <= vy (scale t'))%Q
  /\ (vz (scale t) <= vz (scale t'))%Q.

Definition wide (t : Transform) : Prop :=
  (2 <= vx (scale t))%Q /\ (2 <= vy (scale t))%Q /\ (2 <= vz (scale t))%Q.

(** ** Scene: traces *)

(** The towers the session was told to render from a chunk list, oldest
    first. *)
Fixpoint towersFromServer (effs : list Effect) : list (list string) :=
  match effs with
  | [] => []
  | GenerateTowerFromServer chunkIds :: effs' =>
    towersFromServer effs' ++ [chunkIds]
  | _ :: effs' => towersFromServer effs'
  end.

(** The chunk lists of the tower broadcasts of a run, in order. *)
Fixpoint towersBroadcast (evs : list (Z * Event)) : list (list string) :=
  match evs with
  | [] => []
  | (_, TowerReady chunkIds) :: evs' => chunkIds :: towersBroadcast evs'
  | _ :: evs' => towersBroadcast evs'
  end.

(** Messages sent to the server. *)
Definition isSend (e : Effect) : bool :=
  match e with
  | SendHeightUpdate _ | SendPlayerFinished _ _ | SendPlayerDied _
  | SendPlayerJoined _ => true
  | GenerateTower | GenerateTowerFromServer _ => false
  end.

Definition isGenerateTower (e : Effect) : bool :=
  match e with
  | GenerateTower => true
  | _ => false
  end.

(** The state and the result of an attempt belong together. *)
Definition resultMatchesState (s : Game) : bool :=
  match attemptState s, attemptResult s with
  | NOT_STARTED, None | IN_PROGRESS, None
  | FINISHED, Some WIN | DIED, Some DEATH => true
  | _, _ => false
  end.

(** An event that comes from the server. *)
Definition isBroadcast (e : Event) : bool :=
  match e with
  | TowerReady _ | TimerUpdate _ _ | RoundChanged _ | LeaderboardUpdate _
  | GameEnded _ => true
  | _ => false
  end.

(** * Properties *)

(** ** Helper facts *)

Lemma Qltb_lt (x y : Q) : Qltb x y = true <-> (x < y)%Q.
Proof.
  unfold Qltb. rewrite negb_true_iff. split.
  - intros H. apply Qnot_le_lt. intros Hle.
    apply Qle_bool_iff in Hle. congruence.
  - intros H. destruct (Qle_bool y x) eqn:E; [|reflexivity].
    apply Qle_bool_iff in E. exfalso. exact (Qlt_not_le _ _ H E).
Qed.

Lemma Qltb_ge (x y : Q) : Qltb x y = false <-> (y <= x)%Q.
Proof.
  unfold Qltb. rewrite negb_false_iff. apply Qle_bool_iff.
Qed.

(** ** The clock oracle *)

Module ServerFacts.
Import Server.

(** C1.  For a non-negative clock [now] (in seconds) and positive round and
    break durations, the round-info computation returns the round number
    [now / cycle] (floor division), reports a break exactly when
    [now mod cycle >= roundDuration], and returns [cycle - now mod cycle]
    as remaining time during a break and [roundDuration - now mod cycle]
    otherwise; when [now] is a multiple of the cycle it reports the active
    phase with the whole round duration remaining; with the constants 420
    and 10 and [now = 425] it yields round 0, break, 5 seconds; and
    [getCurrentRoundInfo] is this computation at the module constants and
    at the clock in whole seconds. *)
Theorem computeRoundInfo_spec (now roundDuration breakDuration : Z) :
  0 <= now -> 0 < roundDuration -> 0 < breakDuration ->
  let cycle := roundDuration + breakDuration in
  let info := computeRoundInfo roundDuration breakDuration now in
  roundNumber info = now / cycle
  /\ (isBreak info = true <-> now mod cycle >= roundDuration)
  /\ (isBreak info = true -> remainingTime info = cycle - now mod cycle)
  /\ (isBreak info = false ->
      remainingTime info = roundDuration - now mod cycle)
  /\ (now mod cycle = 0 ->
      isBreak info = false /\ remainingTime info = roundDuration)
  /\ computeRoundInfo 420 10 425 = mkClockInfo 0 true 5
  /\ (forall dateNow,
      getCurrentRoundInfo dateNow = computeRoundInfo 420 10 (dateNow / 1000)).
Proof.
  intros Hnow Hrd Hbd cycle info.
  assert (Hrem : Z.rem now cycle = now mod cycle)
    by (apply Z.rem_mod_nonneg; unfold cycle; lia).
  unfold info, computeRoundInfo. fold cycle. rewrite Hrem. simpl.
  split; [reflexivity|].
  split; [rewrite Z.leb_le; lia|].
  split; [intros H; rewrite H; reflexivity|].
  split; [intros H; rewrite H; reflexivity|].
  split; [|split; [reflexivity|intros dateNow; reflexivity]].
  intros H. rewrite H.
  assert (E : (roundDuration <=? 0) = false) by (apply Z.leb_gt; lia).
  rewrite E. split; [reflexivity|lia].
Qed.

Lemma computeRoundInfo_spec_witness :
  let info := computeRoundInfo 420 10 860 in
  roundNumber info = 860 / (420 + 10)
  /\ (isBreak info = true <-> 860 mod (420 + 10) >= 420)
  /\ (isBreak info = true -> remainingTime info = 420 + 10 - 860 mod (420 + 10))
  /\ (isBreak info = false ->
      remainingTime info = 420 - 860 mod (420 + 10))
  /\ (860 mod (420 + 10) = 0 ->
      isBreak info = false /\ remainingTime info = 420)
  /\ computeRoundInfo 420 10 425 = mkClockInfo 0 true 5
  /\ (forall dateNow,
      getCurrentRoundInfo dateNow = computeRoundInfo 420 10 (dateNow / 1000)).
Proof.
  apply (computeRoundInfo_spec 860 420 10); lia.
Defined.

End ServerFacts.

(** ** The fallback round info of [main] *)

(** C2, as stated, fails.  At 425 s after the epoch the clock oracle of the
    server reports round 0 in its break with 5 s left, while the fallback of
    [main] reports an active round with 420 s left: the two do not agree on
    the phase and the remaining time. *)
Lemma fallback_disagrees_with_clock_at_425s :
  ~ (ri_roundNumber (fallbackRoundInfo 425000)
       = Server.roundNumber (Server.getCurrentRoundInfo 425000)
     /\ ri_isBreak (fallbackRoundInfo 425000)
       = Server.isBreak (Server.getCurrentRoundInfo 425000)
     /\ (ri_remainingTime (fallbackRoundInfo 425000)
       == inject_Z (Server.remainingTime (Server.getCurrentRoundInfo 425000)))%Q).
Proof.
  intros [_ [H _]]. vm_compute in H. discriminate H.
Qed.

(** C2, amended.  At every instant the fallback of [main] computes the same
    round number as the clock oracle of the server.  Its phase is always the
    active one, its remaining time is always 420 s and its tower is always
    the default three chunks; phase and remaining time agree with the clock
    oracle exactly when the clock, in whole seconds, is at the start of a
    cycle.  A session that [main] initialises through the fallback starts
    ACTIVE with a timer of 420 s and renders the default tower. *)
Theorem fallbackRoundInfo_vs_clock (dateNow : Z) :
  let f := fallbackRoundInfo dateNow in
  let c := Server.getCurrentRoundInfo dateNow in
  ri_roundNumber f = Server.roundNumber c
  /\ ri_isBreak f = false
  /\ ri_remainingTime f = 420%Q
  /\ ri_chunkIds f = defaultTower
  /\ ((ri_isBreak f = Server.isBreak c
       /\ (ri_remainingTime f == inject_Z (Server.remainingTime c))%Q)
      <-> Z.rem (dateNow / 1000) 430 = 0)
  /\ (forall initMultiplayer s,
      let s' := main dateNow initMultiplayer None s in
      roundState s' = ACTIVE
      /\ roundTimer s' = 420%Q
      /\ hd_error (effects s') = Some (GenerateTowerFromServer defaultTower)).
Proof.
  cbv zeta.
  split; [reflexivity|].
  split; [reflexivity|].
  split; [reflexivity|].
  split; [reflexivity|].
  split.
  - unfold Server.getCurrentRoundInfo, Server.computeRoundInfo,
      Server.ROUND_DURATION, Server.BREAK_DURATION.
    change (420 + 10) with 430.
    set (r := Z.rem (dateNow / 1000) 430).
    cbn [ri_isBreak ri_remainingTime fallbackRoundInfo
         Server.isBreak Server.remainingTime].
    split.
    + intros [Hb Hr]. destruct (420 <=? r); [discriminate Hb|].
      unfold Qeq in Hr. cbn [Qnum Qden inject_Z] in Hr. lia.
    + intros Hr. rewrite Hr. split; reflexivity.
  - intros im s. simpl. repeat split.
Qed.

(** ** The round timer of the single-player session *)












(** ** The attempt handlers *)

#[local] Arguments Qltb : simpl never.
#[local] Arguments Qeq_bool : simpl never.
#[local] Arguments Qle_bool : simpl never.
#[local] Arguments Math_max : simpl never.
#[local] Arguments secondsSince : simpl never.
#[local] Arguments inject_Z : simpl never.

(** Case analysis on every test a handler makes, innermost test first. *)
Ltac branches :=
  repeat match goal with
         | |- context [if ?b then _ else _] =>
           lazymatch b with
           | context [if _ then _ else _] => fail
           | _ => destruct b eqn:?; simpl
           end
         end.

(** Open the record of the state and name the fields of the hypotheses. *)
Ltac open_game s := destruct s; simpl in *; subst; simpl.

(** What [finishAttempt] does when both of its guards pass. *)
Lemma finishAttempt_fires (now : Z) (s : Game) :
  attemptState s = IN_PROGRESS -> roundState s = ACTIVE ->
  let s' := finishAttempt now s in
  attemptState s' = FINISHED
  /\ attemptFinishTime s' = attemptTimer s
  /\ bestAttemptTime s'
     = (if Qltb (attemptTimer s) (bestAttemptTime s)
           || Qeq_bool (bestAttemptTime s) 0
        then attemptTimer s else bestAttemptTime s)
  /\ bestAttemptHeight s'
     = (if Qltb (bestAttemptHeight s) (playerMaxHeight s)
        then playerMaxHeight s else bestAttemptHeight s)
  /\ roundFinishers s' = roundFinishers s + 1
  /\ roundSpeedMultiplier s' = inject_Z (roundFinishers s + 1 + 1)
  /\ playerMaxHeight s' = playerMaxHeight s.
Proof.
  intros Ha Hr. unfold finishAttempt. open_game s.
  branches; repeat split.
Qed.

(** [finishAttempt] does nothing unless the attempt is in progress and the
    round is active. *)
Lemma finishAttempt_blocked (now : Z) (s : Game) :
  attemptState s <> IN_PROGRESS \/ roundState s <> ACTIVE ->
  finishAttempt now s = s.
Proof.
  intros H. unfold finishAttempt.
  destruct (attemptState s); simpl; try reflexivity.
  destruct (roundState s); simpl; try reflexivity.
  destruct H as [H|H]; exfalso; apply H; reflexivity.
Qed.

(** What [dieAttempt] does when its guard passes. *)
Lemma dieAttempt_fires (now : Z) (s : Game) :
  attemptState s = IN_PROGRESS ->
  let s' := dieAttempt now s in
  attemptState s' = DIED
  /\ bestAttemptTime s' = bestAttemptTime s
  /\ bestAttemptHeight s'
     = (if Qltb (bestAttemptHeight s) (playerMaxHeight s)
        then playerMaxHeight s else bestAttemptHeight s)
  /\ roundFinishers s' = roundFinishers s
  /\ roundSpeedMultiplier s' = roundSpeedMultiplier s
  /\ playerMaxHeight s' = playerMaxHeight s.
Proof.
  intros Ha. unfold dieAttempt. open_game s.
  branches; repeat split.
Qed.

Lemma dieAttempt_blocked (now : Z) (s : Game) :
  attemptState s <> IN_PROGRESS -> dieAttempt now s = s.
Proof.
  intros H. unfold dieAttempt.
  destruct (attemptState s); simpl; try reflexivity.
  exfalso; apply H; reflexivity.
Qed.

Lemma attemptState_IN_PROGRESS_dec (s : Game) :
  {attemptState s = IN_PROGRESS} + {attemptState s <> IN_PROGRESS}.
Proof. destruct (attemptState s); (left; reflexivity) || (right; discriminate). Defined.

(** C4.  A finish that takes effect (the attempt is in progress and the
    round active) increments [roundFinishers] and then sets
    [roundSpeedMultiplier] to [roundFinishers + 1]: from a round that
    starts with no finisher the multiplier is 2 after the first finish, and
    a finish in a round that has one finisher makes it 3.  A death never
    changes [roundSpeedMultiplier] or [roundFinishers]. *)
Theorem finish_speeds_up_death_does_not :
  (forall now s,
     attemptState s = IN_PROGRESS -> roundState s = ACTIVE ->
     let s' := finishAttempt now s in
     roundFinishers s' = roundFinishers s + 1
     /\ roundSpeedMultiplier s' = inject_Z (roundFinishers s' + 1)
     /\ (roundFinishers s = 0 -> roundSpeedMultiplier s' = 2%Q)
     /\ (roundFinishers s = 1 -> roundSpeedMultiplier s' = 3%Q))
  /\ (forall now s,
     roundSpeedMultiplier (dieAttempt now s) = roundSpeedMultiplier s
     /\ roundFinishers (dieAttempt now s) = roundFinishers s).
Proof.
  split.
  - intros now s Ha Hr.
    destruct (finishAttempt_fires now s Ha Hr)
      as (_ & _ & _ & _ & Hf & Hm & _).
    cbv zeta. rewrite Hf, Hm.
    split; [reflexivity|]. split; [reflexivity|].
    split; intros H0; rewrite H0; reflexivity.
  - intros now s. destruct (attemptState_IN_PROGRESS_dec s) as [Ha|Ha].
    + destruct (dieAttempt_fires now s Ha) as (_ & _ & _ & Hf & Hm & _).
      split; assumption.
    + rewrite (dieAttempt_blocked now s Ha). split; reflexivity.
Qed.

(** Two finishes and a death, each from a state in which the handler takes
    effect: the round of a fresh session, then a round that has one
    finisher. *)
Lemma finish_speeds_up_death_does_not_witness :
  let s0 := startAttempt 0 (initialGame 0) in
  let s1 := finishAttempt 5000 s0 in
  let t0 := set_attemptState IN_PROGRESS s1 in
  let t1 := finishAttempt 9000 t0 in
  (roundFinishers s1 = 1 /\ roundSpeedMultiplier s1 = 2%Q)
  /\ (roundFinishers t1 = 2 /\ roundSpeedMultiplier t1 = 3%Q)
  /\ roundSpeedMultiplier (dieAttempt 9500 (set_attemptState IN_PROGRESS t1))
     = 3%Q.
Proof.
  cbv zeta.
  pose proof (proj1 finish_speeds_up_death_does_not 5000
                (startAttempt 0 (initialGame 0)) eq_refl eq_refl)
    as (Hf1 & _ & Hm1 & _).
  pose proof (proj1 finish_speeds_up_death_does_not 9000
                (set_attemptState IN_PROGRESS
                   (finishAttempt 5000 (startAttempt 0 (initialGame 0))))
                eq_refl eq_refl)
    as (Hf2 & _ & _ & Hm2).
  pose proof (proj2 finish_speeds_up_death_does_not 9500
                (set_attemptState IN_PROGRESS
                   (finishAttempt 9000
                      (set_attemptState IN_PROGRESS
                         (finishAttempt 5000 (startAttempt 0 (initialGame 0)))))))
    as (Hd & _).
  split; [split; [exact Hf1 | exact (Hm1 eq_refl)]|].
  split; [split; [exact Hf2 | exact (Hm2 eq_refl)]|].
  rewrite Hd. exact (Hm2 eq_refl).
Defined.

(** ** Entering the Start zone *)

(** C5, as stated, fails.  In the break after a round the player has
    finished, entering the Start zone produces no notification: the message
    on display stays the one of the break and nothing else changes either. *)
Lemma start_while_finished_in_break_is_silent :
  attemptState finishedInBreak = FINISHED
  /\ roundState finishedInBreak = BREAK
  /\ startAttempt 214000 finishedInBreak = finishedInBreak
  /\ resultMessage (startAttempt 214000 finishedInBreak) = MsgNextRoundIn10
  /\ resultMessage (startAttempt 214000 finishedInBreak) <> MsgAlreadyFinished.
Proof.
  vm_compute. repeat split; discriminate.
Qed.

(** C5, amended.  Entering the Start zone while the attempt is FINISHED
    never makes it IN_PROGRESS: in an ACTIVE round the call only sets the
    already-finished notification and its timestamp, and in any other round
    phase it changes nothing (no notification).  Entering the Start zone
    while the attempt is DIED and the round ACTIVE restarts the attempt: the
    state becomes IN_PROGRESS, the start time is the current time and the
    attempt's maximum height is the current player height. *)
Theorem startAttempt_finished_or_died (now : Z) (s : Game) :
  let s' := startAttempt now s in
  (attemptState s = FINISHED ->
     attemptState s' = FINISHED
     /\ (roundState s = ACTIVE ->
         s' = set_resultTimestamp now (set_resultMessage MsgAlreadyFinished s))
     /\ (roundState s <> ACTIVE -> s' = s))
  /\ (attemptState s = DIED -> roundState s = ACTIVE ->
     attemptState s' = IN_PROGRESS
     /\ attemptStartTime s' = now
     /\ attemptTimer s' = 0%Q
     /\ playerMaxHeight s' = playerHeight s).
Proof.
  cbv zeta. unfold startAttempt. split.
  - intros Ha. rewrite Ha. simpl.
    destruct (roundState s) eqn:Hr; simpl; repeat split; try assumption;
      try discriminate.
    intros H. exfalso. apply H. reflexivity.
  - intros Ha Hr. rewrite Ha, Hr. simpl. repeat split.
Qed.

Lemma startAttempt_finished_or_died_witness :
  let f := finishAttempt 2000 (startAttempt 0 (initialGame 0)) in
  let d := dieAttempt 2000 (startAttempt 0 (initialGame 0)) in
  (attemptState (startAttempt 3000 f) = FINISHED
   /\ resultMessage (startAttempt 3000 f) = MsgAlreadyFinished
   /\ startAttempt 3000 finishedInBreak = finishedInBreak)
  /\ (attemptState (startAttempt 3000 d) = IN_PROGRESS
      /\ attemptStartTime (startAttempt 3000 d) = 3000
      /\ playerMaxHeight (startAttempt 3000 d) = playerHeight d).
Proof.
  cbv zeta. split.
  - pose proof (proj1 (startAttempt_finished_or_died 3000
        (finishAttempt 2000 (startAttempt 0 (initialGame 0)))) eq_refl)
      as (Hs & Hm & _).
    pose proof (proj1 (startAttempt_finished_or_died 3000 finishedInBreak)
                  eq_refl) as (_ & _ & Hb).
    split; [exact Hs|]. split.
    + rewrite (Hm eq_refl). reflexivity.
    + apply Hb. vm_compute. discriminate.
  - pose proof (proj2 (startAttempt_finished_or_died 3000
        (dieAttempt 2000 (startAttempt 0 (initialGame 0)))) eq_refl eq_refl)
      as (Hs & Ht & _ & Hh).
    split; [exact Hs|]. split; [exact Ht|exact Hh].
Defined.

(** ** Personal best *)

(** C6, as stated, fails.  No height has been recorded yet (the best height
    is the 0 of a fresh session); the first death records an attempt whose
    maximum height is -1, and the best height stays 0 instead of taking this
    first value. *)
Lemma first_height_not_stored_when_not_above_zero :
  attemptState startedBelowZero = IN_PROGRESS
  /\ bestAttemptHeight startedBelowZero = bestAttemptHeight (initialGame 0)
  /\ (playerMaxHeight startedBelowZero == -1)%Q
  /\ (bestAttemptHeight (dieAttempt 1000 startedBelowZero) == 0)%Q
  /\ ~ (bestAttemptHeight (dieAttempt 1000 startedBelowZero)
        == playerMaxHeight startedBelowZero)%Q.
Proof.
  vm_compute. repeat split; discriminate.
Qed.

(** C6, amended.  On a finish that takes effect, [bestAttemptTime] becomes
    the finish time when the finish time is strictly lower, or when
    [bestAttemptTime] is 0 (which stands for no time recorded yet), and is
    unchanged otherwise.  On a finish or a death that takes effect,
    [bestAttemptHeight] becomes the attempt's maximum height when that is
    strictly higher and is unchanged otherwise: the height has no
    first-value exception.  A death leaves [bestAttemptTime] unchanged, and
    a handler that does not take effect leaves both unchanged. *)
Theorem personal_best_update (now : Z) (s : Game) :
  (attemptState s = IN_PROGRESS -> roundState s = ACTIVE ->
     let s' := finishAttempt now s in
     ((attemptTimer s < bestAttemptTime s)%Q \/ (bestAttemptTime s == 0)%Q ->
        bestAttemptTime s' = attemptTimer s)
     /\ (~ (attemptTimer s < bestAttemptTime s)%Q ->
         ~ (bestAttemptTime s == 0)%Q ->
        bestAttemptTime s' = bestAttemptTime s)
     /\ ((bestAttemptHeight s < playerMaxHeight s)%Q ->
        bestAttemptHeight s' = playerMaxHeight s)
     /\ (~ (bestAttemptHeight s < playerMaxHeight s)%Q ->
        bestAttemptHeight s' = bestAttemptHeight s))
  /\ (attemptState s = IN_PROGRESS ->
     let s' := dieAttempt now s in
     bestAttemptTime s' = bestAttemptTime s
     /\ ((bestAttemptHeight s < playerMaxHeight s)%Q ->
        bestAttemptHeight s' = playerMaxHeight s)
     /\ (~ (bestAttemptHeight s < playerMaxHeight s)%Q ->
        bestAttemptHeight s' = bestAttemptHeight s))
  /\ (attemptState s <> IN_PROGRESS \/ roundState s <> ACTIVE ->
     finishAttempt now s = s)
  /\ (attemptState s <> IN_PROGRESS -> dieAttempt now s = s).
Proof.
  split; [|split; [|split]].
  - intros Ha Hr.
    destruct (finishAttempt_fires now s Ha Hr)
      as (_ & _ & Ht & Hh & _).
    cbv zeta. rewrite Ht, Hh. clear Ht Hh.
    split; [|split; [|split]].
    + intros [H|H].
      * apply Qltb_lt in H. rewrite H. reflexivity.
      * apply Qeq_bool_iff in H. rewrite H, orb_true_r. reflexivity.
    + intros H1 H2.
      destruct (Qltb (attemptTimer s) (bestAttemptTime s)) eqn:E1.
      { exfalso. apply H1. apply Qltb_lt. exact E1. }
      destruct (Qeq_bool (bestAttemptTime s) 0) eqn:E2.
      { exfalso. apply H2. apply Qeq_bool_iff. exact E2. }
      reflexivity.
    + intros H. apply Qltb_lt in H. rewrite H. reflexivity.
    + intros H.
      destruct (Qltb (bestAttemptHeight s) (playerMaxHeight s)) eqn:E.
      { exfalso. apply H. apply Qltb_lt. exact E. }
      reflexivity.
  - intros Ha.
    destruct (dieAttempt_fires now s Ha) as (_ & Ht & Hh & _).
    cbv zeta. rewrite Ht, Hh. clear Ht Hh.
    split; [reflexivity|]. split.
    + intros H. apply Qltb_lt in H. rewrite H. reflexivity.
    + intros H.
      destruct (Qltb (bestAttemptHeight s) (playerMaxHeight s)) eqn:E.
      { exfalso. apply H. apply Qltb_lt. exact E. }
      reflexivity.
  - apply finishAttempt_blocked.
  - apply dieAttempt_blocked.
Qed.

Lemma personal_best_update_witness :
  (bestAttemptTime (finishAttempt 2000 firstClimb) = attemptTimer firstClimb
   /\ bestAttemptHeight (finishAttempt 2000 firstClimb)
      = playerMaxHeight firstClimb
   /\ bestAttemptHeight (dieAttempt 2000 firstClimb)
      = playerMaxHeight firstClimb)
  /\ (bestAttemptTime (finishAttempt 227000 secondClimb)
      = bestAttemptTime secondClimb
      /\ bestAttemptHeight (finishAttempt 227000 secondClimb)
         = bestAttemptHeight secondClimb
      /\ bestAttemptTime (dieAttempt 227000 secondClimb)
         = bestAttemptTime secondClimb
      /\ bestAttemptHeight (dieAttempt 227000 secondClimb)
         = bestAttemptHeight secondClimb)
  /\ finishAttempt 2000 (initialGame 0) = initialGame 0
  /\ dieAttempt 2000 (initialGame 0) = initialGame 0.
Proof.
  pose proof (personal_best_update 2000 firstClimb) as (Hf1 & Hd1 & _ & _).
  pose proof (personal_best_update 227000 secondClimb) as (Hf2 & Hd2 & _ & _).
  pose proof (personal_best_update 2000 (initialGame 0)) as (_ & _ & Hf0 & Hd0).
  specialize (Hf1 eq_refl eq_refl). specialize (Hd1 eq_refl).
  specialize (Hf2 eq_refl eq_refl). specialize (Hd2 eq_refl).
  cbv zeta in Hf1, Hd1, Hf2, Hd2.
  destruct Hf1 as (Ht1 & _ & Hh1 & _). destruct Hd1 as (_ & Hdh1 & _).
  destruct Hf2 as (_ & Ht2 & _ & Hh2). destruct Hd2 as (Hdt2 & _ & Hdh2).
  split; [|split; [|split]].
  - split; [|split].
    + apply Ht1. right. vm_compute. reflexivity.
    + apply Hh1. vm_compute. reflexivity.
    + apply Hdh1. vm_compute. reflexivity.
  - split; [|split; [|split]].
    + apply Ht2; vm_compute; discriminate.
    + apply Hh2; vm_compute; discriminate.
    + exact Hdt2.
    + apply Hdh2; vm_compute; discriminate.
  - apply Hf0. left. discriminate.
  - apply Hd0. discriminate.
Defined.

(** ** Entering the Finish zone twice *)

(** C7.  Entering the Finish zone while the attempt is FINISHED changes no
    variable of the session: [attemptFinishTime], [roundSpeedMultiplier]
    and every other field keep their values.  In particular a second call
    of the finish handler, right after a first one, is a no-op. *)
Theorem finishAttempt_idempotent (now now' : Z) (s : Game) :
  (attemptState s = FINISHED ->
     finishAttempt now s = s
     /\ attemptFinishTime (finishAttempt now s) = attemptFinishTime s
     /\ roundSpeedMultiplier (finishAttempt now s) = roundSpeedMultiplier s)
  /\ finishAttempt now' (finishAttempt now s) = finishAttempt now s.
Proof.
  assert (Hblocked : forall t u, attemptState u = FINISHED ->
                                 finishAttempt t u = u).
  { intros t u Hu. apply finishAttempt_blocked. left. rewrite Hu.
    discriminate. }
  split.
  - intros Ha. rewrite (Hblocked now s Ha). repeat split.
  - destruct (attemptState_IN_PROGRESS_dec s) as [Ha|Ha].
    + destruct (roundState s) eqn:Hr.
      * apply Hblocked.
        destruct (finishAttempt_fires now s Ha Hr) as (Hfin & _).
        exact Hfin.
      * rewrite (finishAttempt_blocked now s) by (right; congruence).
        apply finishAttempt_blocked. right. congruence.
      * rewrite (finishAttempt_blocked now s) by (right; congruence).
        apply finishAttempt_blocked. right. congruence.
    + rewrite (finishAttempt_blocked now s) by (left; exact Ha).
      apply finishAttempt_blocked. left. exact Ha.
Qed.

Lemma finishAttempt_idempotent_witness :
  let f := finishAttempt 2000 firstClimb in
  attemptState f = FINISHED
  /\ finishAttempt 3000 f = f
  /\ attemptFinishTime (finishAttempt 3000 f) = attemptFinishTime f
  /\ roundSpeedMultiplier (finishAttempt 3000 f) = roundSpeedMultiplier f.
Proof.
  cbv zeta. split; [reflexivity|].
  apply (proj1 (finishAttempt_idempotent 3000 3000
                  (finishAttempt 2000 firstClimb))).
  reflexivity.
Defined.

(** ** The reset at a round boundary *)

(** C8.  Whatever the attempt state was, the new-round start of the
    single-player session and the handler of the new-tower broadcast of the
    multiplayer session both set the attempt state to NOT_STARTED, the
    attempt timer to 0 and the attempt's maximum height to 0; so do the
    single-player tick that ends a break of 10 s and the delivery of the
    broadcast to a multiplayer session. *)
Theorem round_boundary_resets_attempt (now : Z) (chunkIds : list string)
    (s : Game) :
  (attemptState (startNewRound now s) = NOT_STARTED
   /\ attemptTimer (startNewRound now s) = 0%Q
   /\ playerMaxHeight (startNewRound now s) = 0%Q)
  /\ (attemptState (onServerTowerReady now chunkIds s) = NOT_STARTED
      /\ attemptTimer (onServerTowerReady now chunkIds s) = 0%Q
      /\ playerMaxHeight (onServerTowerReady now chunkIds s) = 0%Q)
  /\ (roundState s = BREAK -> isMultiplayerMode s = false ->
      (10 <= secondsSince now (resultTimestamp s))%Q ->
      step now UpdateRoundTimer s = startNewRound now s)
  /\ (isMultiplayerMode s = true ->
      step now (TowerReady chunkIds) s = onServerTowerReady now chunkIds s).
Proof.
  split; [repeat split|]. split; [repeat split|]. split.
  - intros Hr Hm Hel. simpl. unfold updateRoundTimer. rewrite Hr, Hm. simpl.
    apply Qle_bool_iff in Hel. rewrite Hel. reflexivity.
  - intros Hm. simpl. rewrite Hm. reflexivity.
Qed.

Lemma round_boundary_resets_attempt_witness :
  step 223000 UpdateRoundTimer finishedInBreak
    = startNewRound 223000 finishedInBreak
  /\ attemptState (step 223000 UpdateRoundTimer finishedInBreak) = NOT_STARTED
  /\ step 5000 (TowerReady defaultTower) (main 0 (Some true) None firstClimb)
     = onServerTowerReady 5000 defaultTower (main 0 (Some true) None firstClimb).
Proof.
  pose proof (round_boundary_resets_attempt 223000 defaultTower finishedInBreak)
    as (_ & _ & Hsingle & _).
  pose proof (round_boundary_resets_attempt 5000 defaultTower
                (main 0 (Some true) None firstClimb))
    as (_ & _ & _ & Hmulti).
  assert (E : step 223000 UpdateRoundTimer finishedInBreak
              = startNewRound 223000 finishedInBreak).
  { apply Hsingle; [reflexivity|reflexivity|].
    vm_compute. discriminate. }
  split; [exact E|]. split; [rewrite E; reflexivity|].
  apply Hmulti. reflexivity.
Defined.

(** ** The maximum height of an attempt *)

Lemma trackPlayerHeight_in_progress (now : Z) (sample : option Q) (s : Game) :
  attemptState s = IN_PROGRESS ->
  attemptState (trackPlayerHeight now sample s) = IN_PROGRESS
  /\ playerMaxHeight (trackPlayerHeight now sample s)
     = match sample with
       | Some y => if Qltb (playerMaxHeight s) y then y else playerMaxHeight s
       | None => playerMaxHeight s
       end.
Proof.
  intros Ha. destruct sample as [y|]; [|split; [exact Ha|reflexivity]].
  unfold trackPlayerHeight. open_game s. branches; repeat split.
Qed.

Lemma trackPlayerHeight_le (now : Z) (sample : option Q) (s : Game) :
  attemptState s = IN_PROGRESS ->
  (playerMaxHeight s <= playerMaxHeight (trackPlayerHeight now sample s))%Q.
Proof.
  intros Ha. destruct (trackPlayerHeight_in_progress now sample s Ha) as [_ E].
  rewrite E. destruct sample as [y|]; [|apply Qle_refl].
  destruct (Qltb (playerMaxHeight s) y) eqn:Hlt; [|apply Qle_refl].
  apply Qlt_le_weak. apply Qltb_lt. exact Hlt.
Qed.

Lemma trackMany_in_progress (samples : list (Z * option Q)) (s : Game) :
  attemptState s = IN_PROGRESS ->
  attemptState (trackMany samples s) = IN_PROGRESS
  /\ (playerMaxHeight s <= playerMaxHeight (trackMany samples s))%Q.
Proof.
  revert s. induction samples as [|[now sample] samples IH]; intros s Ha.
  - split; [exact Ha|apply Qle_refl].
  - simpl.
    destruct (trackPlayerHeight_in_progress now sample s Ha) as [Ha' _].
    destruct (IH _ Ha') as [Ha'' Hle]. split; [exact Ha''|].
    apply Qle_trans with (playerMaxHeight (trackPlayerHeight now sample s)).
    + apply trackPlayerHeight_le. exact Ha.
    + exact Hle.
Qed.

Lemma trackMany_app (samples1 samples2 : list (Z * option Q)) (s : Game) :
  trackMany (samples1 ++ samples2) s = trackMany samples2 (trackMany samples1 s).
Proof.
  revert s. induction samples1 as [|[now sample] samples1 IH]; intros s.
  - reflexivity.
  - simpl. apply IH.
Qed.

(** C9, as stated, fails.  The player starts an attempt, climbs to 5 m and
    falls back to 1 m; the attempt is IN_PROGRESS with a maximum height of
    5.  The player then enters the Start zone again: the attempt is still
    IN_PROGRESS, the round still ACTIVE, no reset has occurred, and the
    maximum height is 1. *)
Lemma restart_lowers_playerMaxHeight :
  attemptState climbedThenFell = IN_PROGRESS
  /\ roundState climbedThenFell = ACTIVE
  /\ (playerMaxHeight climbedThenFell == 5)%Q
  /\ attemptState (step 3000 StartZone climbedThenFell) = IN_PROGRESS
  /\ roundState (step 3000 StartZone climbedThenFell) = ACTIVE
  /\ (playerMaxHeight (step 3000 StartZone climbedThenFell) == 1)%Q
  /\ ~ (playerMaxHeight climbedThenFell
        <= playerMaxHeight (step 3000 StartZone climbedThenFell))%Q.
Proof.
  vm_compute. repeat split; try discriminate.
  intros H. apply H. reflexivity.
Qed.

(** C9, amended.  While the attempt is IN_PROGRESS, a tick of the height
    tracking system that samples the height [y] sets [playerMaxHeight] to
    the maximum of its previous value and [y] (a tick without a sample
    leaves it as it is) and keeps the attempt IN_PROGRESS; over any number
    of samples the value after a longer sequence is at least the value
    after a shorter one.  A finish or a death does not change
    [playerMaxHeight], and no event other than an entry into the Start
    zone lowers it while the attempt stays IN_PROGRESS.  An entry into the
    Start zone during an attempt, in an ACTIVE round, restarts the attempt:
    the state stays IN_PROGRESS, the start time becomes the current time
    and [playerMaxHeight] becomes the current player height, which may be
    lower; in any other round phase it changes nothing. *)
Theorem playerMaxHeight_non_decreasing :
  (forall now y s,
     attemptState s = IN_PROGRESS ->
     let s' := trackPlayerHeight now (Some y) s in
     attemptState s' = IN_PROGRESS
     /\ playerMaxHeight s'
        = (if Qltb (playerMaxHeight s) y then y else playerMaxHeight s)
     /\ (playerMaxHeight s' == Qmax (playerMaxHeight s) y)%Q)
  /\ (forall samples1 samples2 s,
     attemptState s = IN_PROGRESS ->
     attemptState (trackMany (samples1 ++ samples2) s) = IN_PROGRESS
     /\ (playerMaxHeight s <= playerMaxHeight (trackMany samples1 s))%Q
     /\ (playerMaxHeight (trackMany samples1 s)
         <= playerMaxHeight (trackMany (samples1 ++ samples2) s))%Q)
  /\ (forall now s,
     playerMaxHeight (finishAttempt now s) = playerMaxHeight s
     /\ playerMaxHeight (dieAttempt now s) = playerMaxHeight s)
  /\ (forall now e s,
     attemptState s = IN_PROGRESS -> e <> StartZone ->
     attemptState (step now e s) = IN_PROGRESS ->
     (playerMaxHeight s <= playerMaxHeight (step now e s))%Q)
  /\ (forall now s,
     attemptState s = IN_PROGRESS -> roundState s = ACTIVE ->
     attemptState (step now StartZone s) = IN_PROGRESS
     /\ attemptStartTime (step now StartZone s) = now
     /\ playerMaxHeight (step now StartZone s) = playerHeight s)
  /\ (forall now s,
     roundState s <> ACTIVE -> step now StartZone s = s).
Proof.
  split; [|split; [|split; [|split; [|split]]]].
  - intros now y s Ha. cbv zeta.
    destruct (trackPlayerHeight_in_progress now (Some y) s Ha) as [Ha' E].
    split; [exact Ha'|]. split; [exact E|]. rewrite E.
    destruct (Qltb (playerMaxHeight s) y) eqn:Hlt.
    + apply Qltb_lt in Hlt. symmetry. apply Q.max_r.
      apply Qlt_le_weak. exact Hlt.
    + apply Qltb_ge in Hlt. symmetry. apply Q.max_l. exact Hlt.
  - intros samples1 samples2 s Ha. rewrite trackMany_app.
    destruct (trackMany_in_progress samples1 s Ha) as [Ha1 Hle1].
    destruct (trackMany_in_progress samples2 _ Ha1) as [Ha2 Hle2].
    split; [exact Ha2|]. split; [exact Hle1|exact Hle2].
  - intros now s. split.
    + unfold finishAttempt. open_game s. branches; reflexivity.
    + unfold dieAttempt. open_game s. branches; reflexivity.
  - intros now e s Ha He Ha'.
    destruct e; try (exfalso; apply He; reflexivity).
    + apply trackPlayerHeight_le. exact Ha.
    + revert Ha'. simpl. unfold updateRoundTimer, startNewRound, endRound.
      open_game s. branches; intros; try discriminate; apply Qle_refl.
    + revert Ha'. simpl. unfold finishAttempt.
      open_game s. branches; intros; try discriminate; apply Qle_refl.
    + revert Ha'. simpl. unfold dieAttempt.
      open_game s. branches; intros; try discriminate; apply Qle_refl.
    + revert Ha'. simpl. unfold onServerTowerReady.
      open_game s. branches; intros; try discriminate; apply Qle_refl.
    + revert Ha'. simpl. unfold onTimerUpdate.
      open_game s. branches; intros; try discriminate; apply Qle_refl.
    + revert Ha'. simpl. unfold onRoundChanged.
      open_game s. branches; intros; try discriminate; apply Qle_refl.
    + apply Qle_refl.
    + apply Qle_refl.
  - intros now s Ha Hr. simpl. unfold startAttempt. rewrite Ha, Hr. simpl.
    repeat split.
  - intros now s Hr. simpl. unfold startAttempt.
    destruct (roundState s); simpl; try reflexivity.
    exfalso. apply Hr. reflexivity.
Qed.

Lemma playerMaxHeight_non_decreasing_witness :
  let s := startAttempt 0 (initialGame 0) in
  let up := [(1000, Some 5%Q); (2000, Some 7%Q)] in
  let down := [(3000, Some 2%Q); (4000, None)] in
  (playerMaxHeight (trackPlayerHeight 1000 (Some 5%Q) s) == Qmax 0 5)%Q
  /\ (playerMaxHeight (trackMany up s)
      <= playerMaxHeight (trackMany (up ++ down) s))%Q
  /\ (playerMaxHeight (trackMany (up ++ down) s) == 7)%Q
  /\ (playerMaxHeight (trackMany up s)
      <= playerMaxHeight (step 5000 (TimerUpdate 100 2) (trackMany up s)))%Q
  /\ playerMaxHeight (step 3000 StartZone climbedThenFell)
     = playerHeight climbedThenFell
  /\ step 214000 StartZone finishedInBreak = finishedInBreak.
Proof.
  cbv zeta.
  destruct playerMaxHeight_non_decreasing
    as (Htick & Hmany & _ & Hstep & Hrestart & Hidle).
  split; [|split; [|split; [|split; [|split]]]].
  - apply (Htick 1000 5%Q (startAttempt 0 (initialGame 0))). reflexivity.
  - apply (Hmany [(1000, Some 5%Q); (2000, Some 7%Q)]
             [(3000, Some 2%Q); (4000, None)]
             (startAttempt 0 (initialGame 0))).
    reflexivity.
  - vm_compute. reflexivity.
  - apply (Hstep 5000 (TimerUpdate 100 2)
             (trackMany [(1000, Some 5%Q); (2000, Some 7%Q)]
                (startAttempt 0 (initialGame 0)))).
    + reflexivity.
    + discriminate.
    + reflexivity.
  - apply (Hrestart 3000 climbedThenFell); reflexivity.
  - apply (Hidle 214000 finishedInBreak). vm_compute. discriminate.
Defined.

(** ** The round phases of a multiplayer session *)

(** No handler changes the mode of the session. *)
Lemma step_isMultiplayerMode (now : Z) (e : Event) (s : Game) :
  isMultiplayerMode (step now e s) = isMultiplayerMode s.
Proof.
  destruct e; simpl;
    unfold trackPlayerHeight, updateRoundTimer, startNewRound, endRound,
      startAttempt, finishAttempt, dieAttempt, onServerTowerReady,
      onTimerUpdate, onRoundChanged, onLeaderboardUpdate, onGameEnded;
    try (destruct sample); open_game s; branches; reflexivity.
Qed.

Lemma run_isMultiplayerMode (evs : list (Z * Event)) (s : Game) :
  isMultiplayerMode (run evs s) = isMultiplayerMode s.
Proof.
  revert s. induction evs as [|[now e] evs IH]; intros s; simpl.
  - reflexivity.
  - rewrite IH. apply step_isMultiplayerMode.
Qed.

(** C10.  In a multiplayer session, a timer broadcast whose remaining time
    is at most 0, received while the round is ACTIVE, puts the round
    directly into BREAK (and stores the broadcast timer and multiplier).
    A step of a multiplayer session that enters ENDING is the delivery of a
    game-ended broadcast, and every step keeps the session in multiplayer
    mode, so this holds all along a run. *)
Theorem multiplayer_ending_only_by_game_ended :
  (forall now remaining speedMult s,
     isMultiplayerMode s = true -> roundState s = ACTIVE ->
     (remaining <= 0)%Q ->
     let s' := step now (TimerUpdate remaining speedMult) s in
     roundState s' = BREAK
     /\ roundTimer s' = remaining
     /\ roundSpeedMultiplier s' = speedMult)
  /\ (forall now e s,
     isMultiplayerMode s = true -> roundState s <> ENDING ->
     roundState (step now e s) = ENDING ->
     exists winners, e = GameEnded winners)
  /\ (forall evs s,
     isMultiplayerMode s = true -> isMultiplayerMode (run evs s) = true).
Proof.
  split; [|split].
  - intros now remaining speedMult s Hm Hr Hle. cbv zeta. simpl.
    rewrite Hm. unfold onTimerUpdate. apply Qle_bool_iff in Hle.
    open_game s. rewrite Hle. simpl. repeat split.
  - intros now e s Hm Hr He.
    destruct e; try (eexists; reflexivity); exfalso; revert He; simpl;
      unfold trackPlayerHeight, updateRoundTimer, startNewRound, endRound,
        startAttempt, finishAttempt, dieAttempt, onServerTowerReady,
        onTimerUpdate, onRoundChanged, onLeaderboardUpdate;
      try (destruct sample); open_game s; branches; intros He;
      try discriminate; try (apply Hr; exact He);
      try (apply Hr; reflexivity);
      match goal with
      | H : _ && false = true |- _ => rewrite andb_false_r in H; discriminate H
      end.
  - intros evs s Hm. rewrite run_isMultiplayerMode. exact Hm.
Qed.

Lemma multiplayer_ending_only_by_game_ended_witness :
  let s := main 0 (Some true) None (initialGame 0) in
  roundState (step 420000 (TimerUpdate 0 1) s) = BREAK
  /\ (exists winners : list WinnerEntry,
        GameEnded [] = GameEnded winners)
  /\ isMultiplayerMode (run [(420000, TimerUpdate 0 1)] s) = true.
Proof.
  cbv zeta.
  destruct multiplayer_ending_only_by_game_ended as (Htimer & Hending & Hmode).
  split; [|split].
  - apply (Htimer 420000 0%Q 1%Q (main 0 (Some true) None (initialGame 0))).
    + reflexivity.
    + reflexivity.
    + vm_compute. discriminate.
  - apply (Hending 421000 (GameEnded [])
             (step 420000 (TimerUpdate 0 1)
                (main 0 (Some true) None (initialGame 0)))).
    + reflexivity.
    + vm_compute. discriminate.
    + reflexivity.
  - apply (Hmode [(420000, TimerUpdate 0 1)]
             (main 0 (Some true) None (initialGame 0))).
    reflexivity.
Defined.

(** * Further properties *)

(** ** The clock oracle over time *)

Module ClockFacts.
Import Server.

(** The round info at a clock of [now] whole seconds, for [now >= 0], in
    terms of quotient and remainder by the cycle of 430 s. *)
Lemma getCurrentRoundInfo_seconds (dateNow : Z) :
  0 <= dateNow ->
  let now := dateNow / 1000 in
  0 <= now
  /\ getCurrentRoundInfo dateNow
     = mkClockInfo (now / 430) (420 <=? now mod 430)
         (if 420 <=? now mod 430 then 430 - now mod 430
          else 420 - now mod 430).
Proof.
  intros H now.
  assert (Hnow : 0 <= now) by (apply Z.div_pos; lia).
  split; [exact Hnow|].
  unfold getCurrentRoundInfo, computeRoundInfo, ROUND_DURATION, BREAK_DURATION.
  fold now. change (420 + 10) with 430.
  rewrite (Z.rem_mod_nonneg now 430) by lia. reflexivity.
Qed.

Lemma seconds_shift (dateNow d : Z) :
  (dateNow + 1000 * d) / 1000 = dateNow / 1000 + d.
Proof.
  replace (dateNow + 1000 * d) with (dateNow + d * 1000) by lia.
  apply Z.div_add. lia.
Qed.

Lemma remainingTime_range (dateNow : Z) :
  0 <= dateNow ->
  1 <= remainingTime (getCurrentRoundInfo dateNow) <= 420
  /\ (isBreak (getCurrentRoundInfo dateNow) = true ->
      remainingTime (getCurrentRoundInfo dateNow) <= 10)
  /\ 0 <= roundNumber (getCurrentRoundInfo dateNow).
Proof.
  intros H. destruct (getCurrentRoundInfo_seconds dateNow H) as [Hnow E].
  rewrite E. cbn [remainingTime isBreak roundNumber].
  pose proof (Z.mod_pos_bound (dateNow / 1000) 430 ltac:(lia)) as Hm.
  destruct (420 <=? (dateNow / 1000) mod 430) eqn:Hb.
  - apply Z.leb_le in Hb. split; [lia|]. split; [lia|].
    apply Z.div_pos; lia.
  - apply Z.leb_gt in Hb. split; [lia|]. split; [discriminate|].
    apply Z.div_pos; lia.
Qed.

(** X1.  At every clock reading from the epoch on, the remaining time is at
    least 1 s and at most the 420 s of a round, and at most the 10 s of a
    break during a break; the round number is not negative. *)
Theorem remainingTime_bounds (dateNow : Z) :
  0 <= dateNow ->
  let info := getCurrentRoundInfo dateNow in
  1 <= remainingTime info <= 420
  /\ (isBreak info = true -> remainingTime info <= 10)
  /\ 0 <= roundNumber info.
Proof.
  intros H. cbv zeta. apply remainingTime_range. exact H.
Qed.

Lemma remainingTime_bounds_witness :
  1 <= remainingTime (getCurrentRoundInfo 425999) <= 420
  /\ (isBreak (getCurrentRoundInfo 425999) = true ->
      remainingTime (getCurrentRoundInfo 425999) <= 10)
  /\ 0 <= roundNumber (getCurrentRoundInfo 425999).
Proof.
  apply (remainingTime_bounds 425999). lia.
Defined.

(** X2.  The oracle counts down: [d] seconds later, for [d] less than the
    remaining time, it reports the same round and the same phase, with [d]
    seconds less remaining. *)
Theorem countdown_within_phase (dateNow d : Z) :
  0 <= dateNow ->
  0 <= d < remainingTime (getCurrentRoundInfo dateNow) ->
  getCurrentRoundInfo (dateNow + 1000 * d)
  = mkClockInfo (roundNumber (getCurrentRoundInfo dateNow))
      (isBreak (getCurrentRoundInfo dateNow))
      (remainingTime (getCurrentRoundInfo dateNow) - d).
Proof.
  intros H Hd.
  destruct (getCurrentRoundInfo_seconds dateNow H) as [Hnow E].
  destruct (getCurrentRoundInfo_seconds (dateNow + 1000 * d) ltac:(lia))
    as [_ E'].
  rewrite E in *. rewrite E'. rewrite seconds_shift.
  cbn [remainingTime isBreak roundNumber] in *.
  set (now := dateNow / 1000) in *.
  pose proof (Z.mod_pos_bound now 430 ltac:(lia)) as Hm.
  pose proof (Z.div_mod now 430 ltac:(lia)) as Hdm.
  assert (Hdiv : (now + d) / 430 = now / 430 /\
                 (now + d) mod 430 = now mod 430 + d).
  { destruct (420 <=? now mod 430) eqn:Hb;
      [apply Z.leb_le in Hb | apply Z.leb_gt in Hb].
    - assert ((now + d) / 430 = now / 430)
        by (symmetry; apply (Z.div_unique _ _ _ (now mod 430 + d)); lia).
      assert ((now + d) mod 430 = now mod 430 + d)
        by (symmetry; apply (Z.mod_unique _ _ (now / 430)); lia).
      split; assumption.
    - assert ((now + d) / 430 = now / 430)
        by (symmetry; apply (Z.div_unique _ _ _ (now mod 430 + d)); lia).
      assert ((now + d) mod 430 = now mod 430 + d)
        by (symmetry; apply (Z.mod_unique _ _ (now / 430)); lia).
      split; assumption. }
  destruct Hdiv as [Hq Hr]. rewrite Hq, Hr.
  destruct (420 <=? now mod 430) eqn:Hb;
    [apply Z.leb_le in Hb | apply Z.leb_gt in Hb].
  - replace (420 <=? now mod 430 + d) with true
      by (symmetry; apply Z.leb_le; lia).
    f_equal. lia.
  - replace (420 <=? now mod 430 + d) with false
      by (symmetry; apply Z.leb_gt; lia).
    f_equal. lia.
Qed.

Lemma countdown_within_phase_witness :
  getCurrentRoundInfo (100000 + 1000 * 319)
  = mkClockInfo (roundNumber (getCurrentRoundInfo 100000))
      (isBreak (getCurrentRoundInfo 100000))
      (remainingTime (getCurrentRoundInfo 100000) - 319).
Proof.
  apply (countdown_within_phase 100000 319); [lia|].
  vm_compute. split; discriminate || reflexivity.
Defined.

(** X3.  When the remaining time has run out the phase turns: a round is
    followed by the break of the same round number with 10 s to go, and a
    break by the round of the next number with 420 s to go. *)
Theorem phase_turns_at_expiry (dateNow : Z) :
  0 <= dateNow ->
  let info := getCurrentRoundInfo dateNow in
  getCurrentRoundInfo (dateNow + 1000 * remainingTime info)
  = if isBreak info
    then mkClockInfo (roundNumber info + 1) false 420
    else mkClockInfo (roundNumber info) true 10.
Proof.
  intros H. cbv zeta.
  destruct (getCurrentRoundInfo_seconds dateNow H) as [Hnow E].
  pose proof (remainingTime_range dateNow H) as Hb.
  destruct (getCurrentRoundInfo_seconds
              (dateNow + 1000 * remainingTime (getCurrentRoundInfo dateNow))
              ltac:(lia)) as [_ E'].
  rewrite E'. rewrite seconds_shift. clear E' Hb. rewrite E.
  cbn [remainingTime isBreak roundNumber].
  set (now := dateNow / 1000) in *.
  pose proof (Z.mod_pos_bound now 430 ltac:(lia)) as Hm.
  pose proof (Z.div_mod now 430 ltac:(lia)) as Hdm.
  destruct (420 <=? now mod 430) eqn:Hb;
    [apply Z.leb_le in Hb | apply Z.leb_gt in Hb].
  - assert (Hq : (now + (430 - now mod 430)) / 430 = now / 430 + 1)
      by (symmetry; apply (Z.div_unique _ _ _ 0); lia).
    assert (Hr : (now + (430 - now mod 430)) mod 430 = 0)
      by (symmetry; apply (Z.mod_unique _ _ (now / 430 + 1)); lia).
    rewrite Hq, Hr. reflexivity.
  - assert (Hq : (now + (420 - now mod 430)) / 430 = now / 430)
      by (symmetry; apply (Z.div_unique _ _ _ 420); lia).
    assert (Hr : (now + (420 - now mod 430)) mod 430 = 420)
      by (symmetry; apply (Z.mod_unique _ _ (now / 430)); lia).
    rewrite Hq, Hr. reflexivity.
Qed.

Lemma phase_turns_at_expiry_witness :
  getCurrentRoundInfo (425000 + 1000 * remainingTime (getCurrentRoundInfo 425000))
  = mkClockInfo 1 false 420.
Proof.
  apply (phase_turns_at_expiry 425000). lia.
Defined.

(** X4.  The oracle is periodic: [k] cycles of 430 s later it reports the
    round number increased by [k], the same phase and the same remaining
    time; and the round number never decreases as the clock advances. *)
Theorem round_number_advances_with_cycles :
  (forall dateNow k,
     0 <= dateNow -> 0 <= k ->
     getCurrentRoundInfo (dateNow + 1000 * (430 * k))
     = mkClockInfo (roundNumber (getCurrentRoundInfo dateNow) + k)
         (isBreak (getCurrentRoundInfo dateNow))
         (remainingTime (getCurrentRoundInfo dateNow)))
  /\ (forall dateNow1 dateNow2,
     dateNow1 <= dateNow2 ->
     roundNumber (getCurrentRoundInfo dateNow1)
     <= roundNumber (getCurrentRoundInfo dateNow2)).
Proof.
  split.
  - intros dateNow k H Hk.
    destruct (getCurrentRoundInfo_seconds dateNow H) as [Hnow E].
    destruct (getCurrentRoundInfo_seconds (dateNow + 1000 * (430 * k))
                ltac:(lia)) as [_ E'].
    rewrite E', E, seconds_shift. cbn [remainingTime isBreak roundNumber].
    replace (dateNow / 1000 + 430 * k) with (dateNow / 1000 + k * 430) by lia.
    rewrite Z.div_add by lia. rewrite Z.mod_add by lia. reflexivity.
  - intros d1 d2 Hle. unfold getCurrentRoundInfo, computeRoundInfo.
    cbn [roundNumber]. unfold ROUND_DURATION, BREAK_DURATION.
    apply Z.div_le_mono; [lia|]. apply Z.div_le_mono; lia.
Qed.

Lemma round_number_advances_with_cycles_witness :
  getCurrentRoundInfo (425000 + 1000 * (430 * 3)) = mkClockInfo 3 true 5
  /\ roundNumber (getCurrentRoundInfo 429999)
     <= roundNumber (getCurrentRoundInfo 430000).
Proof.
  destruct round_number_advances_with_cycles as [Hper Hmono].
  split.
  - apply (Hper 425000 3); lia.
  - apply (Hmono 429999 430000). lia.
Defined.

(** X5.  Before the epoch the remainder of the source takes the sign of the
    clock: the oracle then never reports a break, its remaining time is
    between 420 s and 849 s, and the round number is negative. *)
Theorem clock_before_epoch (dateNow : Z) :
  dateNow < 0 ->
  let info := getCurrentRoundInfo dateNow in
  isBreak info = false
  /\ 420 <= remainingTime info <= 849
  /\ roundNumber info < 0.
Proof.
  intros H. cbv zeta.
  unfold getCurrentRoundInfo, computeRoundInfo, ROUND_DURATION, BREAK_DURATION.
  change (420 + 10) with 430. cbn [remainingTime isBreak roundNumber].
  set (now := dateNow / 1000).
  assert (Hnow : now < 0) by (apply Z.div_lt_upper_bound; lia).
  pose proof (Z.rem_bound_pos_neg now 430 ltac:(lia) ltac:(lia)) as Hr.
  assert (Hb : (420 <=? Z.rem now 430) = false) by (apply Z.leb_gt; lia).
  rewrite Hb. split; [reflexivity|]. split; [lia|].
  apply Z.div_lt_upper_bound; lia.
Qed.

Lemma clock_before_epoch_witness :
  isBreak (getCurrentRoundInfo (-425000)) = false
  /\ 420 <= remainingTime (getCurrentRoundInfo (-425000)) <= 849
  /\ roundNumber (getCurrentRoundInfo (-425000)) < 0.
Proof.
  apply (clock_before_epoch (-425000)). lia.
Defined.

End ClockFacts.

(** ** The status endpoint *)

Module StatusFacts.
Import Server Status.

Lemma timeRemaining_upto_420 :
  forallb (fun r => String.eqb (timeRemaining (mkClockInfo 0 false r))
                      (clockText r))
    (map Z.of_nat (seq 0 421)) = true.
Proof. vm_compute. reflexivity. Qed.

Lemma timeRemaining_clockText (info : ClockInfo) :
  0 <= remainingTime info <= 420 ->
  timeRemaining info = clockText (remainingTime info).
Proof.
  intros Hr.
  assert (E : timeRemaining info
              = timeRemaining (mkClockInfo 0 false (remainingTime info)))
    by (destruct info; reflexivity).
  rewrite E. apply String.eqb_eq.
  pose proof timeRemaining_upto_420 as Hall.
  rewrite forallb_forall in Hall. apply Hall.
  apply in_map_iff. exists (Z.to_nat (remainingTime info)).
  split; [lia|]. apply in_seq. lia.
Qed.

(** X6.  At every clock reading from the epoch on, the [timeRemaining] of
    the status body is the text [m:ss] of the remaining time: one digit of
    minutes, a colon and two digits of seconds, four characters in all; and
    its [roundState] is [BREAK] exactly during a break and [ACTIVE]
    otherwise. *)
Theorem status_body_format (dateNow : Z) :
  0 <= dateNow ->
  let info := getCurrentRoundInfo dateNow in
  timeRemaining info = clockText (remainingTime info)
  /\ String.length (timeRemaining info) = 4%nat
  /\ (roundStateName info = "BREAK"%string <-> isBreak info = true)
  /\ (roundStateName info = "ACTIVE"%string <-> isBreak info = false).
Proof.
  intros H. cbv zeta.
  destruct (ClockFacts.getCurrentRoundInfo_seconds dateNow H) as [_ E].
  assert (Hr : 0 <= remainingTime (getCurrentRoundInfo dateNow) <= 420).
  { rewrite E. cbn [remainingTime].
    pose proof (Z.mod_pos_bound (dateNow / 1000) 430 ltac:(lia)) as Hm.
    destruct (420 <=? (dateNow / 1000) mod 430) eqn:Hb;
      [apply Z.leb_le in Hb | apply Z.leb_gt in Hb]; lia. }
  rewrite (timeRemaining_clockText _ Hr).
  split; [reflexivity|]. split; [reflexivity|].
  unfold roundStateName.
  destruct (isBreak (getCurrentRoundInfo dateNow)); split; split;
    congruence || discriminate || reflexivity.
Qed.

Lemma status_body_format_witness :
  timeRemaining (getCurrentRoundInfo 425000) = "0:05"%string
  /\ timeRemaining (getCurrentRoundInfo 0) = "7:00"%string
  /\ roundStateName (getCurrentRoundInfo 425000) = "BREAK"%string.
Proof.
  pose proof (status_body_format 425000 ltac:(lia)) as (E1 & _ & Hb & _).
  pose proof (status_body_format 0 ltac:(lia)) as (E2 & _).
  cbv zeta in *. split; [|split].
  - rewrite E1. reflexivity.
  - rewrite E2. reflexivity.
  - apply Hb. reflexivity.
Defined.

End StatusFacts.

(** ** Invariants of a running session *)

(** Unfold every handler a step can call. *)
Ltac unfold_handlers :=
  unfold step, trackPlayerHeight, updateRoundTimer, startNewRound, endRound,
    startAttempt, finishAttempt, dieAttempt, onServerTowerReady,
    onTimerUpdate, onRoundChanged, onLeaderboardUpdate, onGameEnded, emit.

Lemma resultMatchesState_step (now : Z) (e : Event) (s : Game) :
  resultMatchesState s = true -> resultMatchesState (step now e s) = true.
Proof.
  unfold resultMatchesState. intros H.
  destruct e as [[y|]| | | | | | | | | ]; unfold_handlers; open_game s;
    destruct attemptState0; destruct attemptResult0 as [[|]|];
    try discriminate H; simpl; branches; reflexivity.
Qed.

(** X7.  The result of an attempt always fits its state: WIN exactly in
    FINISHED, DEATH exactly in DIED, none in NOT_STARTED and IN_PROGRESS.
    This holds in the session [main] initialises and is kept by every
    event, hence all along a run. *)
Theorem attempt_result_fits_state :
  (forall loadTime now initMultiplayer getRoundInfo evs,
     resultMatchesState
       (run evs (main now initMultiplayer getRoundInfo (initialGame loadTime)))
     = true)
  /\ (forall evs s,
     resultMatchesState s = true -> resultMatchesState (run evs s) = true).
Proof.
  assert (Hrun : forall evs s,
    resultMatchesState s = true -> resultMatchesState (run evs s) = true).
  { induction evs as [|[now e] evs IH]; intros s H; simpl.
    - exact H.
    - apply IH. apply resultMatchesState_step. exact H. }
  split; [|exact Hrun].
  intros loadTime now im gri evs. apply Hrun.
  destruct im as [[|]|]; reflexivity.
Qed.

Lemma attempt_result_fits_state_witness :
  resultMatchesState (run [(3000, DeathZone); (4000, StartZone)] firstClimb)
  = true.
Proof.
  apply (proj2 attempt_result_fits_state). reflexivity.
Defined.

Lemma bestAttemptHeight_step (now : Z) (e : Event) (s : Game) :
  (bestAttemptHeight s <= bestAttemptHeight (step now e s))%Q.
Proof.
  destruct e as [[y|]| | | | | | | | | ]; unfold_handlers; open_game s;
    branches; try apply Qle_refl;
    apply Qlt_le_weak; apply Qltb_lt; assumption.
Qed.

Lemma bestAttemptTime_step (now : Z) (e : Event) (s : Game) :
  ~ (bestAttemptTime s == 0)%Q ->
  (bestAttemptTime (step now e s) <= bestAttemptTime s)%Q.
Proof.
  intros Hnz.
  destruct e as [[y|]| | | | | | | | | ]; unfold_handlers; open_game s;
    branches; try apply Qle_refl;
    match goal with
    | H : _ || _ = true |- _ =>
      apply orb_true_iff in H; destruct H as [H|H];
        [apply Qlt_le_weak; apply Qltb_lt; exact H
        |exfalso; apply Hnz; apply Qeq_bool_iff; exact H]
    end.
Qed.

Lemma bestAttempt_changed_by_finish_or_death (now : Z) (e : Event) (s : Game) :
  e <> FinishZone -> e <> DeathZone ->
  bestAttemptTime (step now e s) = bestAttemptTime s
  /\ bestAttemptHeight (step now e s) = bestAttemptHeight s.
Proof.
  intros Hf Hd.
  destruct e as [[y|]| | | | | | | | | ];
    try (exfalso; apply Hf; reflexivity);
    try (exfalso; apply Hd; reflexivity);
    unfold_handlers; open_game s; branches; split; reflexivity.
Qed.

Lemma bestAttemptTime_run (evs : list (Z * Event)) (s : Game) :
  (forall evs1 ev evs2, evs = evs1 ++ ev :: evs2 ->
                        ~ (bestAttemptTime (run evs1 s) == 0)%Q) ->
  (bestAttemptTime (run evs s) <= bestAttemptTime s)%Q.
Proof.
  revert s. induction evs as [|[now e] evs IH]; intros s Hnz.
  - apply Qle_refl.
  - change (run ((now, e) :: evs) s) with (run evs (step now e s)).
    apply Qle_trans with (bestAttemptTime (step now e s)).
    + apply IH. intros evs1 ev evs2 E.
      apply (Hnz ((now, e) :: evs1) ev evs2). rewrite E. reflexivity.
    + apply bestAttemptTime_step. apply (Hnz [] (now, e) evs).
      reflexivity.
Qed.

(** X8.  What a session keeps of the personal best.  The best height never
    gets worse: all along a run, over round resets and broadcasts, it never
    decreases.  The best time is protected only while it is not 0: no event
    replaces a best time other than 0 by a greater one, so along a run in
    which no event finds a best time of 0 it never increases; but a best time of
    0, also one that was recorded, is overwritten by the next finish time
    whatever that is, so over a session the best time can get worse.  Only
    an entry into the Finish or the Death zone changes either of them. *)
Theorem personal_best_over_a_run :
  (forall evs s,
     (bestAttemptHeight s <= bestAttemptHeight (run evs s))%Q)
  /\ (forall now e s,
     ~ (bestAttemptTime s == 0)%Q ->
     (bestAttemptTime (step now e s) <= bestAttemptTime s)%Q)
  /\ (forall evs s,
     (forall evs1 ev evs2, evs = evs1 ++ ev :: evs2 ->
                           ~ (bestAttemptTime (run evs1 s) == 0)%Q) ->
     (bestAttemptTime (run evs s) <= bestAttemptTime s)%Q)
  /\ (forall now s,
     attemptState s = IN_PROGRESS -> roundState s = ACTIVE ->
     (bestAttemptTime s == 0)%Q ->
     bestAttemptTime (step now FinishZone s) = attemptTimer s)
  /\ (forall now e s,
     e <> FinishZone -> e <> DeathZone ->
     bestAttemptTime (step now e s) = bestAttemptTime s
     /\ bestAttemptHeight (step now e s) = bestAttemptHeight s).
Proof.
  split; [|split; [|split; [|split]]].
  - induction evs as [|[now e] evs IH]; intros s; simpl.
    + apply Qle_refl.
    + apply Qle_trans with (bestAttemptHeight (step now e s)).
      * apply bestAttemptHeight_step.
      * apply IH.
  - apply bestAttemptTime_step.
  - apply bestAttemptTime_run.
  - intros now s Ha Hr Hz. simpl.
    destruct (finishAttempt_fires now s Ha Hr) as (_ & _ & Ht & _).
    rewrite Ht. apply Qeq_bool_iff in Hz. rewrite Hz, orb_true_r.
    reflexivity.
  - apply bestAttempt_changed_by_finish_or_death.
Qed.

(** A session whose best time goes from 1 s to 0 and from 0 to 3 s. *)
Lemma personal_best_over_a_run_witness :
  let s := main 0 (Some true) None (initialGame 0) in
  let s1 := run firstRound s in
  let s2 := run secondRound s1 in
  let s3 := run thirdRound s2 in
  (bestAttemptHeight s <= bestAttemptHeight s3)%Q
  /\ (bestAttemptTime s1 == 1)%Q
  /\ (bestAttemptTime s2 <= bestAttemptTime s1)%Q
  /\ (bestAttemptTime s2 == 0)%Q
  /\ (bestAttemptTime s3 == 3)%Q
  /\ bestAttemptHeight (step 3000 (TowerReady defaultTower) s1)
     = bestAttemptHeight s1.
Proof.
  cbv zeta.
  destruct personal_best_over_a_run as (Hh & _ & Hrun & _ & Hother).
  split; [|split; [|split; [|split; [|split]]]].
  - apply Qle_trans with
      (bestAttemptHeight (run firstRound (main 0 (Some true) None (initialGame 0)))).
    + apply Hh.
    + apply Qle_trans with
        (bestAttemptHeight
           (run secondRound
              (run firstRound (main 0 (Some true) None (initialGame 0))))).
      * apply Hh.
      * apply Hh.
  - vm_compute. reflexivity.
  - apply (Hrun secondRound
             (run firstRound (main 0 (Some true) None (initialGame 0)))).
    intros evs1 ev evs2 E. unfold secondRound in E.
    destruct evs1 as [|e1 [|e2 [|e3 rest]]]; simpl in E.
    + vm_compute. discriminate.
    + injection E as E1 _. subst e1. vm_compute. discriminate.
    + injection E as E1 E2 _. subst e1 e2. vm_compute. discriminate.
    + injection E as _ _ _ E4. destruct rest; discriminate E4.
  - vm_compute. reflexivity.
  - vm_compute. reflexivity.
  - apply (Hother 3000 (TowerReady defaultTower)); discriminate.
Defined.

(** ** What a session sends and renders *)

Lemma single_player_step_effects (now : Z) (e : Event) (s : Game) :
  isMultiplayerMode s = false ->
  isMultiplayerMode (step now e s) = false
  /\ (effects (step now e s) = effects s
      \/ effects (step now e s) = GenerateTower :: effects s).
Proof.
  intros Hm.
  destruct e as [[y|]| | | | | | | | | ]; unfold_handlers; open_game s;
    branches; split; try reflexivity; (left; reflexivity) || (right; reflexivity).
Qed.

(** X9.  A single-player session never sends anything to the server and
    never renders a tower from a chunk list: all along a run, the calls it
    adds are calls of [generateTower]. *)
Theorem single_player_sends_nothing (evs : list (Z * Event)) (s : Game) :
  isMultiplayerMode s = false ->
  exists added,
    effects (run evs s) = added ++ effects s
    /\ forallb isGenerateTower added = true
    /\ forallb (fun e => negb (isSend e)) added = true.
Proof.
  revert s. induction evs as [|[now e] evs IH]; intros s Hm; simpl.
  - exists []. repeat split.
  - destruct (single_player_step_effects now e s Hm) as [Hm' Heff].
    destruct (IH _ Hm') as (added & E & Hg & Hs).
    destruct Heff as [Heff|Heff]; rewrite Heff in E.
    + exists added. repeat split; assumption.
    + exists (added ++ [GenerateTower]). split; [|split].
      * rewrite E, <- app_assoc. reflexivity.
      * rewrite forallb_app, Hg. reflexivity.
      * rewrite forallb_app, Hs. reflexivity.
Qed.

Lemma single_player_sends_nothing_witness :
  exists added,
    effects (run [(223000, UpdateRoundTimer); (224000, StartZone);
                  (226000, FinishZone)] finishedInBreak)
    = added ++ effects finishedInBreak
    /\ forallb isGenerateTower added = true
    /\ forallb (fun e => negb (isSend e)) added = true.
Proof.
  apply (single_player_sends_nothing
           [(223000, UpdateRoundTimer); (224000, StartZone);
            (226000, FinishZone)] finishedInBreak).
  reflexivity.
Defined.

Lemma multiplayer_step_towers (now : Z) (e : Event) (s : Game) :
  isMultiplayerMode s = true ->
  towersFromServer (effects (step now e s))
  = towersFromServer (effects s) ++ towersBroadcast [(now, e)]
  /\ filter isGenerateTower (effects (step now e s))
     = filter isGenerateTower (effects s).
Proof.
  intros Hm.
  destruct e as [[y|]| | | | | | | | | ]; unfold_handlers; open_game s;
    branches; simpl; rewrite ?app_nil_r; split; reflexivity.
Qed.

(** X10.  A multiplayer session renders exactly the towers the server
    broadcasts: all along a run, the chunk lists it renders are those of
    the tower broadcasts, in their order, and it never generates a tower of
    its own. *)
Theorem multiplayer_renders_broadcast_towers (evs : list (Z * Event))
    (s : Game) :
  isMultiplayerMode s = true ->
  towersFromServer (effects (run evs s))
  = towersFromServer (effects s) ++ towersBroadcast evs
  /\ filter isGenerateTower (effects (run evs s))
     = filter isGenerateTower (effects s).
Proof.
  revert s. induction evs as [|[now e] evs IH]; intros s Hm.
  - simpl. rewrite app_nil_r. split; reflexivity.
  - change (run ((now, e) :: evs) s) with (run evs (step now e s)).
    assert (Hm' : isMultiplayerMode (step now e s) = true)
      by (rewrite step_isMultiplayerMode; exact Hm).
    destruct (IH _ Hm') as [Ht Hg].
    destruct (multiplayer_step_towers now e s Hm) as [Ht1 Hg1].
    rewrite Ht, Ht1, Hg, Hg1, <- app_assoc. split; [|reflexivity].
    f_equal. destruct e; reflexivity.
Qed.

Lemma multiplayer_renders_broadcast_towers_witness :
  let s := main 0 (Some true) None (initialGame 0) in
  let evs := [(1000, StartZone); (2000, TowerReady ["A"; "B"]%string);
              (3000, UpdateRoundTimer); (4000, TowerReady ["C"]%string)] in
  towersFromServer (effects (run evs s))
  = [defaultTower; ["A"; "B"]%string; ["C"]%string].
Proof.
  cbv zeta.
  pose proof (multiplayer_renders_broadcast_towers
                [(1000, StartZone); (2000, TowerReady ["A"; "B"]%string);
                 (3000, UpdateRoundTimer); (4000, TowerReady ["C"]%string)]
                (main 0 (Some true) None (initialGame 0)) eq_refl) as [E _].
  rewrite E. reflexivity.
Defined.

(** ** Height reports to the server *)

Lemma trackPlayerHeight_quiet (now : Z) (sample : option Q) (s : Game) :
  now - lastHeightUpdateTime s < HEIGHT_UPDATE_INTERVAL ->
  effects (trackPlayerHeight now sample s) = effects s
  /\ lastHeightUpdateTime (trackPlayerHeight now sample s)
     = lastHeightUpdateTime s.
Proof.
  intros Hlt. destruct sample as [y|]; [|split; reflexivity].
  unfold trackPlayerHeight, emit. open_game s.
  branches; split; try reflexivity;
    match goal with
    | H : (_ <=? _) = true |- _ =>
      apply Z.leb_le in H; unfold HEIGHT_UPDATE_INTERVAL in *; lia
    end.
Qed.

(** X11.  Height reports are throttled.  A sample taken in a multiplayer
    session during an attempt, 500 ms or more after the last report, sends
    the attempt's maximum height and records the time; after that, samples
    taken less than 500 ms after the recorded time send nothing, however
    many there are.  A single-player session sends no height report. *)
Theorem height_reports_throttled :
  (forall now y s,
     attemptState s = IN_PROGRESS -> isMultiplayerMode s = true ->
     HEIGHT_UPDATE_INTERVAL <= now - lastHeightUpdateTime s ->
     let s' := trackPlayerHeight now (Some y) s in
     effects s' = SendHeightUpdate (playerMaxHeight s') :: effects s
     /\ lastHeightUpdateTime s' = now)
  /\ (forall samples s,
     (forall t y, In (t, y) samples ->
                  t - lastHeightUpdateTime s < HEIGHT_UPDATE_INTERVAL) ->
     effects (trackMany samples s) = effects s
     /\ lastHeightUpdateTime (trackMany samples s) = lastHeightUpdateTime s)
  /\ (forall samples s,
     isMultiplayerMode s = false ->
     effects (trackMany samples s) = effects s).
Proof.
  split; [|split].
  - intros now y s Ha Hm Hge. cbv zeta.
    unfold trackPlayerHeight, emit. open_game s.
    branches; split; try reflexivity;
      match goal with
      | H : (_ <=? _) = false |- _ =>
        apply Z.leb_gt in H; unfold HEIGHT_UPDATE_INTERVAL in *; lia
      end.
  - induction samples as [|[t y] samples IH]; intros s Hall; simpl.
    + split; reflexivity.
    + destruct (trackPlayerHeight_quiet t y s) as [He Hl].
      { apply (Hall t y). left. reflexivity. }
      destruct (IH (trackPlayerHeight t y s)) as [He' Hl'].
      { intros t' y' Hin. rewrite Hl. apply (Hall t' y'). right. exact Hin. }
      rewrite He', Hl', He, Hl. split; reflexivity.
  - induction samples as [|[t y] samples IH]; intros s Hm; simpl.
    + reflexivity.
    + assert (H1 : effects (trackPlayerHeight t y s) = effects s
                   /\ isMultiplayerMode (trackPlayerHeight t y s) = false).
      { destruct y as [y|]; [|split; [reflexivity|exact Hm]].
        unfold trackPlayerHeight, emit. open_game s.
        branches; split; reflexivity. }
      destruct H1 as [He Hm']. rewrite (IH _ Hm'). exact He.
Qed.

Lemma height_reports_throttled_witness :
  let s := startAttempt 1000 (main 0 (Some true) None (initialGame 0)) in
  let s' := trackPlayerHeight 1000 (Some 5%Q) s in
  (effects s' = SendHeightUpdate (playerMaxHeight s') :: effects s
   /\ lastHeightUpdateTime s' = 1000)
  /\ effects (trackMany [(1100, Some 6%Q); (1499, Some 9%Q)] s') = effects s'
  /\ effects (trackMany [(1000, Some 5%Q); (2000, Some 9%Q)]
                (startAttempt 1000 (initialGame 0)))
     = effects (startAttempt 1000 (initialGame 0)).
Proof.
  cbv zeta.
  destruct height_reports_throttled as (Hsend & Hquiet & Hsingle).
  split; [|split].
  - apply (Hsend 1000 5%Q
             (startAttempt 1000 (main 0 (Some true) None (initialGame 0))));
      [reflexivity|reflexivity|vm_compute; discriminate].
  - apply (Hquiet [(1100, Some 6%Q); (1499, Some 9%Q)]
             (trackPlayerHeight 1000 (Some 5%Q)
                (startAttempt 1000 (main 0 (Some true) None (initialGame 0))))).
    intros t y [E|[E|[]]]; inversion E; subst; vm_compute; reflexivity.
  - apply (Hsingle [(1000, Some 5%Q); (2000, Some 9%Q)]
             (startAttempt 1000 (initialGame 0))).
    reflexivity.
Defined.

(** ** The round of a single-player session *)




(** ** Who changes the round *)

(** X13.  In a multiplayer session the server drives the round: a step that
    brings the round back to ACTIVE is the delivery of a tower broadcast; a
    step that enters BREAK is a timer broadcast, a round broadcast, or the
    tick that ends the display of the results; and no zone entry and no
    height sample changes the round state, the timer or the multiplier,
    except that a finish sets the multiplier. *)
Theorem multiplayer_round_is_server_driven :
  (forall now e s,
     isMultiplayerMode s = true -> roundState s <> ACTIVE ->
     roundState (step now e s) = ACTIVE ->
     exists chunkIds, e = TowerReady chunkIds)
  /\ (forall now e s,
     isMultiplayerMode s = true -> roundState s <> BREAK ->
     roundState (step now e s) = BREAK ->
     (exists remaining speedMult, e = TimerUpdate remaining speedMult)
     \/ (exists info, e = RoundChanged info)
     \/ (e = UpdateRoundTimer /\ roundState s = ENDING))
  /\ (forall now e s,
     isBroadcast e = false -> e <> UpdateRoundTimer ->
     roundState (step now e s) = roundState s
     /\ roundTimer (step now e s) = roundTimer s
     /\ (e <> FinishZone ->
         roundSpeedMultiplier (step now e s) = roundSpeedMultiplier s)).
Proof.
  split; [|split].
  - intros now e s Hm Hr He.
    destruct e as [[y|]| | | | | | | | | ];
      try (eexists; reflexivity); exfalso; revert He;
      unfold_handlers; open_game s; branches; intros He;
      try discriminate; try (apply Hr; exact He);
      match goal with
      | H : _ && false = true |- _ => rewrite andb_false_r in H; discriminate H
      end.
  - intros now e s Hm Hr He.
    destruct e as [[y|]| | | | | | | | | ];
      try (left; eexists; eexists; reflexivity);
      try (right; left; eexists; reflexivity);
      revert He; unfold_handlers; open_game s; branches; intros He;
      try discriminate; try (exfalso; apply Hr; exact He);
      try (right; right; split; [reflexivity|];
           match goal with
           | H : RoundState_eqb ?r ENDING = true |- _ =>
             destruct r; try discriminate H; reflexivity
           end);
      match goal with
      | H : _ && false = true |- _ => rewrite andb_false_r in H; discriminate H
      end.
  - intros now e s Hb Hu.
    destruct e as [[y|]| | | | | | | | | ]; try discriminate Hb;
      try (exfalso; apply Hu; reflexivity);
      unfold_handlers; open_game s; branches;
      (split; [reflexivity|]); (split; [reflexivity|]); intros Hf;
      try reflexivity; exfalso; apply Hf; reflexivity.
Qed.

Lemma multiplayer_round_is_server_driven_witness :
  let s := main 0 (Some true) None (initialGame 0) in
  let b := step 420000 (TimerUpdate 0 1) s in
  (exists chunkIds, TowerReady defaultTower = TowerReady chunkIds)
  /\ ((exists remaining speedMult,
         TimerUpdate 0 1 = TimerUpdate remaining speedMult)
      \/ (exists info, TimerUpdate 0 1 = RoundChanged info)
      \/ (TimerUpdate 0 1 = UpdateRoundTimer /\ roundState s = ENDING))
  /\ roundState (step 1000 StartZone s) = roundState s.
Proof.
  cbv zeta.
  destruct multiplayer_round_is_server_driven as (Hactive & Hbreak & Hlocal).
  split; [|split].
  - apply (Hactive 430000 (TowerReady defaultTower)
             (step 420000 (TimerUpdate 0 1)
                (main 0 (Some true) None (initialGame 0)))).
    + reflexivity.
    + vm_compute. discriminate.
    + reflexivity.
  - apply (Hbreak 420000 (TimerUpdate 0 1)
             (main 0 (Some true) None (initialGame 0))).
    + reflexivity.
    + vm_compute. discriminate.
    + reflexivity.
  - apply (Hlocal 1000 StartZone (main 0 (Some true) None (initialGame 0)));
      [reflexivity|discriminate].
Defined.

Lemma roundFinishers_step (now : Z) (e : Event) (s : Game) :
  roundFinishers (step now e s) = roundFinishers s
  \/ (e = FinishZone /\ roundFinishers (step now e s) = roundFinishers s + 1)
  \/ (e = UpdateRoundTimer /\ isMultiplayerMode s = false
      /\ roundFinishers (step now e s) = 0).
Proof.
  destruct e as [[y|]| | | | | | | | | ]; unfold_handlers; open_game s;
    branches; try (left; reflexivity);
    try (right; left; split; reflexivity).
  all: right; right; split; [reflexivity|]; split; [|reflexivity].
  all: destruct isMultiplayerMode0; [discriminate|reflexivity].
Qed.

(** X14.  The finisher count of a session changes in two ways only: a
    finish adds one, and the new-round start of a single-player session
    resets it to 0.  A multiplayer session never resets it: all along a
    run, over any number of tower broadcasts, it never decreases. *)
Theorem roundFinishers_changes :
  (forall now e s,
     roundFinishers (step now e s) = roundFinishers s
     \/ (e = FinishZone /\ roundFinishers (step now e s) = roundFinishers s + 1)
     \/ (e = UpdateRoundTimer /\ isMultiplayerMode s = false
         /\ roundFinishers (step now e s) = 0))
  /\ (forall evs s,
     isMultiplayerMode s = true ->
     roundFinishers s <= roundFinishers (run evs s)).
Proof.
  split; [apply roundFinishers_step|].
  induction evs as [|[now e] evs IH]; intros s Hm; simpl.
  - lia.
  - assert (Hm' : isMultiplayerMode (step now e s) = true)
      by (rewrite step_isMultiplayerMode; exact Hm).
    specialize (IH _ Hm').
    destruct (roundFinishers_step now e s) as [E|[[_ E]|[_ [Hs _]]]].
    + lia.
    + lia.
    + congruence.
Qed.

Lemma roundFinishers_changes_witness :
  let s := main 0 (Some true) None (initialGame 0) in
  let evs := [(1000, StartZone); (2000, FinishZone);
              (430000, TowerReady defaultTower); (431000, StartZone);
              (440000, FinishZone)] in
  roundFinishers s <= roundFinishers (run evs s)
  /\ roundFinishers (run evs s) = 2.
Proof.
  cbv zeta. split; [|reflexivity].
  apply (proj2 roundFinishers_changes
           [(1000, StartZone); (2000, FinishZone);
            (430000, TowerReady defaultTower); (431000, StartZone);
            (440000, FinishZone)]
           (main 0 (Some true) None (initialGame 0))).
  reflexivity.
Defined.

(** ** The time of a finish *)

Lemma trackPlayerHeight_keeps_attempt (now : Z) (sample : option Q) (s : Game) :
  attemptState (trackPlayerHeight now sample s) = attemptState s
  /\ attemptStartTime (trackPlayerHeight now sample s) = attemptStartTime s
  /\ roundState (trackPlayerHeight now sample s) = roundState s.
Proof.
  destruct sample as [y|]; [|repeat split].
  unfold trackPlayerHeight, emit. open_game s. branches; repeat split.
Qed.

Lemma trackMany_keeps_attempt (samples : list (Z * option Q)) (s : Game) :
  attemptState (trackMany samples s) = attemptState s
  /\ attemptStartTime (trackMany samples s) = attemptStartTime s
  /\ roundState (trackMany samples s) = roundState s.
Proof.
  revert s. induction samples as [|[t y] samples IH]; intros s; simpl.
  - repeat split.
  - destruct (IH (trackPlayerHeight t y s)) as (Ha & Hs & Hr).
    destruct (trackPlayerHeight_keeps_attempt t y s) as (Ha' & Hs' & Hr').
    rewrite Ha, Hs, Hr, Ha', Hs', Hr'. repeat split.
Qed.

(** X15.  The finish time is the attempt timer of the last height sample,
    not the time of the finish.  An attempt started at [tStart] in an ACTIVE
    round (the player had not finished), sampled any number of times with a
    last sample at [tLast], and finished at any later time [tFinish],
    records the finish time [(tLast - tStart) / 1000]; an attempt finished
    before any sample records the finish time 0. *)
Theorem finish_time_is_last_sample (tStart tLast tFinish : Z)
    (samples : list (Z * option Q)) (y : Q) (s : Game) :
  roundState s = ACTIVE -> attemptState s <> FINISHED ->
  let started := startAttempt tStart s in
  let sampled := trackMany (samples ++ [(tLast, Some y)]) started in
  attemptState (finishAttempt tFinish sampled) = FINISHED
  /\ attemptFinishTime (finishAttempt tFinish sampled)
     = secondsSince tLast tStart
  /\ attemptState (finishAttempt tFinish started) = FINISHED
  /\ attemptFinishTime (finishAttempt tFinish started) = 0%Q.
Proof.
  intros Hr Ha. cbv zeta.
  assert (Hstart : attemptState (startAttempt tStart s) = IN_PROGRESS
                   /\ attemptStartTime (startAttempt tStart s) = tStart
                   /\ roundState (startAttempt tStart s) = ACTIVE
                   /\ attemptTimer (startAttempt tStart s) = 0%Q).
  { unfold startAttempt. open_game s.
    destruct attemptState0; try (exfalso; apply Ha; reflexivity);
      repeat split. }
  destruct Hstart as (Hs1 & Hs2 & Hs3 & Hs4).
  rewrite trackMany_app.
  destruct (trackMany_keeps_attempt samples (startAttempt tStart s))
    as (Hk1 & Hk2 & Hk3).
  set (mid := trackMany samples (startAttempt tStart s)) in *.
  assert (Hlast : attemptState (trackMany [(tLast, Some y)] mid) = IN_PROGRESS
                  /\ roundState (trackMany [(tLast, Some y)] mid) = ACTIVE
                  /\ attemptTimer (trackMany [(tLast, Some y)] mid)
                     = secondsSince tLast tStart).
  { assert (Hmid1 : attemptState mid = IN_PROGRESS) by congruence.
    assert (Hmid2 : attemptStartTime mid = tStart) by congruence.
    assert (Hmid3 : roundState mid = ACTIVE) by congruence.
    clearbody mid. clear Hk1 Hk2 Hk3 Hs1 Hs2 Hs3 Hs4 Hr Ha.
    simpl. unfold trackPlayerHeight, emit. open_game mid.
    branches; repeat split. }
  destruct Hlast as (Hl1 & Hl2 & Hl3).
  destruct (finishAttempt_fires tFinish _ Hl1 Hl2) as (Hf1 & Hf2 & _).
  destruct (finishAttempt_fires tFinish _ Hs1 Hs3) as (Hg1 & Hg2 & _).
  rewrite Hf1, Hf2, Hl3, Hg1, Hg2, Hs4. repeat split.
Qed.

Lemma finish_time_is_last_sample_witness :
  let started := startAttempt 1000 (initialGame 0) in
  let sampled :=
    trackMany ([(2000, Some 3%Q); (3000, None)] ++ [(4000, Some 8%Q)])
      started in
  attemptFinishTime (finishAttempt 9000 sampled) = secondsSince 4000 1000
  /\ attemptFinishTime (finishAttempt 9000 started) = 0%Q.
Proof.
  cbv zeta.
  pose proof (finish_time_is_last_sample 1000 4000 9000
                [(2000, Some 3%Q); (3000, None)] 8%Q (initialGame 0)
                eq_refl ltac:(discriminate)) as (_ & H1 & _ & H2).
  split; [exact H1|exact H2].
Defined.

(** ** Trigger boxes *)

Lemma Qhalf_le (a b : Q) : (a <= b)%Q -> (a / 2 <= b / 2)%Q.
Proof.
  intros H. unfold Qdiv. apply Qmult_le_compat_r; [exact H|].
  vm_compute. discriminate.
Qed.

Lemma triggerScale_ge (x : Q) : (x <= Math_max x 2)%Q /\ (2 <= Math_max x 2)%Q.
Proof. unfold Math_max. split; [apply Q.le_max_l|apply Q.le_max_r]. Qed.

Lemma axis_inside_wider (d x x' : Q) :
  (x <= x')%Q -> Qle_bool d (x / 2) = true -> Qle_bool d (x' / 2) = true.
Proof.
  intros Hx H. apply Qle_bool_iff in H. apply Qle_bool_iff.
  apply Qle_trans with (x / 2)%Q; [exact H|apply Qhalf_le; exact Hx].
Qed.

Lemma axis_outside_negative (d x : Q) :
  (x < 0)%Q -> Qle_bool (Qabs d) (x / 2) = false.
Proof.
  intros Hx. destruct (Qle_bool (Qabs d) (x / 2)) eqn:E; [|reflexivity].
  apply Qle_bool_iff in E. exfalso.
  assert (Hneg : (x / 2 < 0)%Q).
  { unfold Qdiv. setoid_replace 0%Q with (0 * / 2)%Q by ring.
    apply Qmult_lt_compat_r; [vm_compute; reflexivity|exact Hx]. }
  apply (Qlt_not_le _ _ Hneg).
  apply Qle_trans with (Qabs d); [apply Qabs_nonneg|exact E].
Qed.

Lemma isInsideBox_near_after_setup (p center sc : Vector3) :
  (Qabs (vx p - vx center) <= 1)%Q -> (Qabs (vy p - vy center) <= 1)%Q ->
  (Qabs (vz p - vz center) <= 1)%Q ->
  isInsideBox p center (triggerScale sc) = true.
Proof.
  intros Hx Hy Hz. unfold isInsideBox, triggerScale. cbn [vx vy vz].
  assert (H1 : forall d x, (d <= 1)%Q -> Qle_bool d (Math_max x 2 / 2) = true).
  { intros d x Hd. apply Qle_bool_iff.
    apply Qle_trans with 1%Q; [exact Hd|].
    apply Qle_trans with (2 / 2)%Q; [vm_compute; discriminate|].
    apply Qhalf_le. apply triggerScale_ge. }
  rewrite (H1 _ _ Hx), (H1 _ _ Hy), (H1 _ _ Hz). reflexivity.
Qed.

(** X16.  The scale [main] gives a trigger never shrinks its box and makes
    it at least 2 wide on every axis: a point inside the box before the
    set-up is inside afterwards, and whatever the scale was, every point
    within 1 of the centre on each axis is inside afterwards.  Without the
    set-up, a box with a negative scale on some axis contains no point, not
    even its centre. *)
Theorem trigger_box_after_setup (pos center sc : Vector3) :
  (isInsideBox pos center sc = true ->
   isInsideBox pos center (triggerScale sc) = true)
  /\ ((Qabs (vx pos - vx center) <= 1)%Q ->
      (Qabs (vy pos - vy center) <= 1)%Q ->
      (Qabs (vz pos - vz center) <= 1)%Q ->
      isInsideBox pos center (triggerScale sc) = true)
  /\ ((vx sc < 0)%Q \/ (vy sc < 0)%Q \/ (vz sc < 0)%Q ->
      isInsideBox pos center sc = false)
  /\ isInsideBox center center (triggerScale sc) = true.
Proof.
  split; [|split; [|split]].
  - unfold isInsideBox, triggerScale. cbn [vx vy vz]. intros H.
    apply andb_true_iff in H. destruct H as [H Hz].
    apply andb_true_iff in H. destruct H as [Hx Hy].
    rewrite (axis_inside_wider _ _ _ (proj1 (triggerScale_ge (vx sc))) Hx).
    rewrite (axis_inside_wider _ _ _ (proj1 (triggerScale_ge (vy sc))) Hy).
    rewrite (axis_inside_wider _ _ _ (proj1 (triggerScale_ge (vz sc))) Hz).
    reflexivity.
  - apply isInsideBox_near_after_setup.
  - unfold isInsideBox. intros [H|[H|H]];
      rewrite (axis_outside_negative _ _ H);
      rewrite ?andb_false_r; reflexivity.
  - assert (H0 : forall a, (Qabs (a - a) <= 1)%Q).
    { intros a. setoid_replace (a - a)%Q with 0%Q by ring.
      vm_compute. discriminate. }
    apply isInsideBox_near_after_setup; apply H0.
Qed.

Lemma trigger_box_after_setup_witness :
  let flat := Vector3_create 4 (-1) 4 in
  let center := Vector3_create 10 0 10 in
  let pos := Vector3_create 11 1 9 in
  isInsideBox pos center (triggerScale flat) = true
  /\ isInsideBox center center flat = false.
Proof.
  cbv zeta.
  pose proof (trigger_box_after_setup (Vector3_create 11 1 9)
                (Vector3_create 10 0 10) (Vector3_create 4 (-1) 4))
    as (_ & Hnear & _ & _).
  pose proof (trigger_box_after_setup (Vector3_create 10 0 10)
                (Vector3_create 10 0 10) (Vector3_create 4 (-1) 4))
    as (_ & _ & Hneg & _).
  split.
  - apply Hnear; vm_compute; discriminate.
  - apply Hneg. right. left. vm_compute. reflexivity.
Defined.

(** ** World positions and the trigger detection system *)

Section EngineFacts.

Variable rotate : Vector3 -> Quaternion -> Vector3.
Variable RootEntity : Entity.
Variable PlayerEntity : Entity.

Local Abbreviation worldPosition := (getWorldPosition rotate RootEntity).
Local Abbreviation climbsTo := (climbs RootEntity).
Local Abbreviation chainEnds := (ChainEnds RootEntity).
Local Abbreviation detect := (triggerSystem rotate RootEntity PlayerEntity).

(** One call of [getWorldPosition], by the parent it recurses into. *)
Lemma worldPosition_unfold (fuel : nat) (store : TransformStore) (e : Entity) :
  match climbsTo store e with
  | None =>
    worldPosition (S fuel) store e
    = Some (match store e with
            | Some t => position t
            | None => Vector3_Zero
            end)
  | Some p =>
    exists t pt,
      store e = Some t /\ parent t = Some p /\ store p = Some pt
      /\ N.eqb p RootEntity = false
      /\ worldPosition (S fuel) store e
         = match worldPosition fuel store p with
           | Some parentWorldPos =>
             Some (Vector3_add
                     (Vector3_create
                        (vx (rotate (position t) (rotation pt)) * vx (scale pt))%Q
                        (vy (rotate (position t) (rotation pt)) * vy (scale pt))%Q
                        (vz (rotate (position t) (rotation pt)) * vz (scale pt))%Q)
                     parentWorldPos)
           | None => None
           end
  end.
Proof.
  unfold climbs. simpl. unfold Transform_has.
  destruct (store e) as [t|]; [|reflexivity].
  destruct (parent t) as [p|] eqn:Hp; [|reflexivity].
  destruct (N.eqb p RootEntity) eqn:Hroot; simpl; [reflexivity|].
  destruct (store p) as [pt|] eqn:Hpt; simpl; [|reflexivity].
  exists t, pt. repeat split; assumption.
Qed.

Lemma worldPosition_of_chain (store : TransformStore) (e : Entity) (n : nat) :
  chainEnds store e n ->
  exists v, forall fuel, (n < fuel)%nat -> worldPosition fuel store e = Some v.
Proof.
  induction 1 as [e Hstop|e p n Hclimb Hchain [v IH]].
  - eexists. intros [|fuel] Hlt; [lia|].
    pose proof (worldPosition_unfold fuel store e) as H. rewrite Hstop in H.
    exact H.
  - pose proof (worldPosition_unfold 0 store e) as H0. rewrite Hclimb in H0.
    destruct H0 as (t & pt & Ht & _ & Hpt & _ & _).
    exists (Vector3_add
              (Vector3_create
                 (vx (rotate (position t) (rotation pt)) * vx (scale pt))%Q
                 (vy (rotate (position t) (rotation pt)) * vy (scale pt))%Q
                 (vz (rotate (position t) (rotation pt)) * vz (scale pt))%Q)
              v).
    intros [|fuel] Hlt; [lia|].
    pose proof (worldPosition_unfold fuel store e) as H. rewrite Hclimb in H.
    destruct H as (t' & pt' & Ht' & _ & Hpt' & _ & E).
    assert (Et : t' = t) by congruence.
    assert (Ept : pt' = pt) by congruence.
    subst t' pt'. rewrite E, (IH fuel) by lia. reflexivity.
Qed.

Lemma chain_of_worldPosition (fuel : nat) (store : TransformStore)
    (e : Entity) (v : Vector3) :
  worldPosition fuel store e = Some v ->
  exists n, (n < fuel)%nat /\ chainEnds store e n.
Proof.
  revert e v. induction fuel as [|fuel IH]; intros e v H; [discriminate H|].
  pose proof (worldPosition_unfold fuel store e) as Hu.
  destruct (climbsTo store e) as [p|] eqn:Hc.
  - destruct Hu as (t & pt & _ & _ & _ & _ & E). rewrite E in H.
    destruct (worldPosition fuel store p) as [w|] eqn:Hw; [|discriminate H].
    destruct (IH p w Hw) as (n & Hn & Hchain).
    exists (S n). split; [lia|]. apply chain_climb with p; assumption.
  - exists O. split; [lia|]. apply chain_stop. exact Hc.
Qed.

(** X17.  [getWorldPosition] returns exactly when the parent chain it
    follows is finite.  If the chain from an entity ends after [n] parents,
    every recursion depth above [n] suffices and all of them give the same
    position; and whenever a call returns within some depth, the chain
    ends within that depth. *)
Theorem getWorldPosition_returns_on_finite_chains (store : TransformStore)
    (e : Entity) :
  (forall n,
     chainEnds store e n ->
     exists v, forall fuel, (n < fuel)%nat ->
                            worldPosition fuel store e = Some v)
  /\ (forall fuel v,
     worldPosition fuel store e = Some v ->
     exists n, (n < fuel)%nat /\ chainEnds store e n).
Proof.
  split.
  - apply worldPosition_of_chain.
  - intros fuel v. apply chain_of_worldPosition.
Qed.

Lemma worldPosition_cycle (store : TransformStore) (a b : Entity)
    (ta tb : Transform) (fuel : nat) :
  store a = Some ta -> store b = Some tb ->
  parent ta = Some b -> parent tb = Some a ->
  a <> RootEntity -> b <> RootEntity ->
  worldPosition fuel store a = None /\ worldPosition fuel store b = None.
Proof.
  intros Ha Hb Hpa Hpb Hra Hrb.
  apply N.eqb_neq in Hra. apply N.eqb_neq in Hrb.
  induction fuel as [|fuel [IHa IHb]]; [split; reflexivity|].
  simpl. unfold Transform_has.
  rewrite Ha, Hb, Hpa, Hpb, Hra, Hrb, Ha, Hb. simpl.
  rewrite IHa, IHb. split; reflexivity.
Qed.

(** X18.  A cycle of parents makes [getWorldPosition] recurse without end:
    for an entity that is its own parent, and for two entities that are
    each other's parent, no recursion depth gives a result. *)
Theorem getWorldPosition_diverges_on_cycles (store : TransformStore)
    (a b : Entity) (ta tb : Transform) :
  store a = Some ta -> store b = Some tb ->
  parent ta = Some b -> parent tb = Some a ->
  a <> RootEntity -> b <> RootEntity ->
  forall fuel,
    worldPosition fuel store a = None /\ worldPosition fuel store b = None.
Proof.
  intros Ha Hb Hpa Hpb Hra Hrb fuel.
  apply (worldPosition_cycle store a b ta tb fuel); assumption.
Qed.

(** The outcome of one block of the detection system. *)
Lemma zoneCheck_flag (inside flag : bool) (handler : Game -> Game) (g : Game) :
  fst (zoneCheck inside flag handler g) = inside
  /\ snd (zoneCheck inside flag handler g)
     = (if inside && negb flag then handler g else g).
Proof. destruct inside, flag; split; reflexivity. Qed.

Lemma zoneCheck_settled (inside : bool) (handler : Game -> Game) (g : Game) :
  zoneCheck inside inside handler g = (inside, g).
Proof. destruct inside; reflexivity. Qed.

(** X19.  The detection system calls a zone handler once per entry.  After
    a frame, a second frame over the same transforms changes neither the
    flags nor the session, whatever the clock: while the player stays
    where they are, no handler runs again. *)
Theorem triggerSystem_fires_once (fuel : nat) (now now' : Z)
    (store : TransformStore) (triggerStart triggerEnd triggerDeath : option Entity)
    (st st' : TriggerFlags * Game) :
  detect fuel now store triggerStart triggerEnd triggerDeath st = Some st' ->
  detect fuel now' store triggerStart triggerEnd triggerDeath st' = Some st'.
Proof.
  unfold triggerSystem. destruct st as [[f1 f2 f3] g], st' as [flags' g'].
  destruct (store PlayerEntity) as [pt|]; [|reflexivity].
  cbn [inTriggerStart inTriggerEnd inTriggerDeath].
  destruct triggerStart as [es|]; try destruct (store es) as [ts|];
    destruct triggerEnd as [ee|];
    try (destruct (store ee) as [te|];
         try destruct (worldPosition fuel store ee) as [wp|]);
    destruct triggerDeath as [ed|]; try destruct (store ed) as [td|];
    intros H; try discriminate H;
    repeat match type of H with
           | context [zoneCheck ?i ?f ?h ?x] =>
             let P := fresh "P" in
             let Q := fresh "Q" in
             pose proof (zoneCheck_flag i f h x) as [P Q];
             revert H; destruct (zoneCheck i f h x); intros H;
             cbn [fst snd] in P, Q; clear Q; subst
           end;
    inversion H; subst;
    cbn [inTriggerStart inTriggerEnd inTriggerDeath];
    rewrite ?zoneCheck_settled; reflexivity.
Qed.

(** X20.  An entry into the Start and the Finish zone in the same frame
    finishes the attempt at once.  When the round is ACTIVE, the player has
    not finished, and a frame finds the player newly inside both boxes, the
    frame ends with the attempt FINISHED and a finish time of 0, whether or
    not the Death zone is entered too. *)
Theorem start_and_finish_in_one_frame (fuel : nat) (now : Z)
    (store : TransformStore) (es ee : Entity) (triggerDeath : option Entity)
    (pt ts te : Transform) (wp : Vector3) (flags : TriggerFlags) (g : Game) :
  store PlayerEntity = Some pt ->
  store es = Some ts -> store ee = Some te ->
  worldPosition fuel store ee = Some wp ->
  isInsideBox (position pt) (position ts) (scale ts) = true ->
  isInsideBox (position pt) wp (scale te) = true ->
  inTriggerStart flags = false -> inTriggerEnd flags = false ->
  roundState g = ACTIVE -> attemptState g <> FINISHED ->
  exists flags' g',
    detect fuel now store (Some es) (Some ee) triggerDeath (flags, g)
    = Some (flags', g')
    /\ inTriggerStart flags' = true /\ inTriggerEnd flags' = true
    /\ attemptState g' = FINISHED
    /\ attemptFinishTime g' = 0%Q
    /\ roundFinishers g' = roundFinishers g + 1.
Proof.
  intros Hp Hs He Hw Hin1 Hin2 Hf1 Hf2 Hr Ha.
  unfold triggerSystem. rewrite Hp, Hs, He, Hw, Hin1, Hin2, Hf1, Hf2.
  cbn [zoneCheck andb negb].
  assert (Hstart : attemptState (startAttempt now g) = IN_PROGRESS
                   /\ roundState (startAttempt now g) = ACTIVE
                   /\ attemptTimer (startAttempt now g) = 0%Q
                   /\ roundFinishers (startAttempt now g) = roundFinishers g).
  { unfold startAttempt. open_game g.
    destruct attemptState0; try (exfalso; apply Ha; reflexivity);
      repeat split. }
  destruct Hstart as (Hs1 & Hs2 & Hs3 & Hs4).
  destruct (finishAttempt_fires now _ Hs1 Hs2)
    as (Hg1 & Hg2 & _ & _ & Hg3 & _).
  set (fin := finishAttempt now (startAttempt now g)) in *.
  assert (Hdie : dieAttempt now fin = fin).
  { apply dieAttempt_blocked. rewrite Hg1. discriminate. }
  destruct triggerDeath as [ed|]; [destruct (store ed) as [td|]|].
  - pose proof (zoneCheck_flag
      (isInsideBox (position pt) (position td) (scale td))
      (inTriggerDeath flags) (dieAttempt now) fin) as [_ Hsnd].
    destruct (zoneCheck (isInsideBox (position pt) (position td) (scale td))
                (inTriggerDeath flags) (dieAttempt now) fin) as [fd g'].
    cbn [snd] in Hsnd.
    assert (Hg' : g' = fin)
      by (rewrite Hsnd, Hdie;
          destruct (isInsideBox (position pt) (position td) (scale td)
                    && negb (inTriggerDeath flags)); reflexivity).
    subst g'. eexists. eexists. split; [reflexivity|].
    repeat split; try assumption; congruence.
  - eexists. eexists. split; [reflexivity|].
    repeat split; try assumption; congruence.
  - eexists. eexists. split; [reflexivity|].
    repeat split; try assumption; congruence.
Qed.


End EngineFacts.

Lemma setupTrigger_transform (store : TransformStore)
    (trigger : option Entity) (e : Entity) (t : Transform) :
  store e = Some t ->
  exists t', setupTrigger store trigger e = Some t' /\ widened t t'
             /\ (trigger = Some e -> wide t').
Proof.
  intros Ht. unfold setupTrigger.
  destruct trigger as [e0|].
  - destruct (store e0) as [t0|] eqn:Ht0.
    + destruct (N.eqb e e0) eqn:E.
      * apply N.eqb_eq in E. subst e0.
        assert (t0 = t) by congruence. subst t0.
        eexists. split; [reflexivity|]. unfold widened, wide, triggerScale.
        cbn [position scale vx vy vz].
        split; [|intros _]; repeat split; apply triggerScale_ge.
      * exists t. split; [exact Ht|]. split.
        -- unfold widened. repeat split; apply Qle_refl.
        -- intros H. injection H as H. subst e0. rewrite N.eqb_refl in E.
           discriminate E.
    + exists t. split; [exact Ht|]. split.
      * unfold widened. repeat split; apply Qle_refl.
      * intros H. injection H as H. subst e0. congruence.
  - exists t. split; [exact Ht|]. split.
    + unfold widened. repeat split; apply Qle_refl.
    + discriminate.
Qed.

Lemma widened_wide (t t' : Transform) : widened t t' -> wide t -> wide t'.
Proof.
  intros (_ & Hx & Hy & Hz) (Wx & Wy & Wz). unfold wide.
  split; [|split].
  - apply Qle_trans with (vx (scale t)); assumption.
  - apply Qle_trans with (vy (scale t)); assumption.
  - apply Qle_trans with (vz (scale t)); assumption.
Qed.

Lemma setupTriggers_transform (store : TransformStore)
    (triggerStart triggerEnd triggerDeath : option Entity)
    (e : Entity) (t : Transform) :
  store e = Some t ->
  exists t',
    setupTriggers store triggerStart triggerEnd triggerDeath e = Some t'
    /\ position t' = position t
    /\ (triggerStart = Some e -> wide t').
Proof.
  intros Ht. unfold setupTriggers.
  destruct (setupTrigger_transform store triggerStart e t Ht)
    as (t1 & E1 & W1 & S1).
  destruct (setupTrigger_transform _ triggerEnd e t1 E1)
    as (t2 & E2 & W2 & _).
  destruct (setupTrigger_transform _ triggerDeath e t2 E2)
    as (t3 & E3 & W3 & _).
  exists t3. split; [exact E3|]. split.
  - destruct W1 as [P1 _], W2 as [P2 _], W3 as [P3 _]. congruence.
  - intros H. apply (widened_wide t2 t3 W3).
    apply (widened_wide t1 t2 W2). apply S1. exact H.
Qed.

Lemma isInsideBox_near_wide (p center sc : Vector3) :
  (Qabs (vx p - vx center) <= 1)%Q -> (Qabs (vy p - vy center) <= 1)%Q ->
  (Qabs (vz p - vz center) <= 1)%Q ->
  (2 <= vx sc)%Q -> (2 <= vy sc)%Q -> (2 <= vz sc)%Q ->
  isInsideBox p center sc = true.
Proof.
  intros Hx Hy Hz Wx Wy Wz. unfold isInsideBox.
  assert (H1 : forall d x, (d <= 1)%Q -> (2 <= x)%Q -> Qle_bool d (x / 2) = true).
  { intros d x Hd Hw. apply Qle_bool_iff.
    apply Qle_trans with 1%Q; [exact Hd|].
    apply Qle_trans with (2 / 2)%Q; [vm_compute; discriminate|].
    apply Qhalf_le. exact Hw. }
  rewrite (H1 _ _ Hx Wx), (H1 _ _ Hy Wy), (H1 _ _ Hz Wz). reflexivity.
Qed.

(** X22.  After the set-up of the three triggers in [main], the Start
    trigger catches a player who stands within 1 of its position on every
    axis, whatever its scale was and whatever the other two triggers are.
    Every frame that completes and first finds the player there has called
    [startAttempt] and raised the flag: the session after the frame is that
    of [startAttempt], followed by [finishAttempt] or not and by
    [dieAttempt] or not.  The frame completes whenever the world position
    of the Finish trigger, if the scene has one with a transform, is
    found. *)
Theorem start_trigger_catches_player_after_setup
    (rotate : Vector3 -> Quaternion -> Vector3) (RootEntity PlayerEntity : Entity)
    (fuel : nat) (now : Z) (store : TransformStore) (es : Entity)
    (triggerEnd triggerDeath : option Entity)
    (pt ts : Transform) (flags : TriggerFlags) (g : Game) :
  store PlayerEntity = Some pt -> store es = Some ts ->
  (Qabs (vx (position pt) - vx (position ts)) <= 1)%Q ->
  (Qabs (vy (position pt) - vy (position ts)) <= 1)%Q ->
  (Qabs (vz (position pt) - vz (position ts)) <= 1)%Q ->
  inTriggerStart flags = false ->
  let store' := setupTriggers store (Some es) triggerEnd triggerDeath in
  let frame :=
    triggerSystem rotate RootEntity PlayerEntity fuel now store'
      (Some es) triggerEnd triggerDeath (flags, g) in
  (forall flags' g',
     frame = Some (flags', g') ->
     inTriggerStart flags' = true
     /\ exists gEnd,
          (gEnd = startAttempt now g
           \/ gEnd = finishAttempt now (startAttempt now g))
          /\ (g' = gEnd \/ g' = dieAttempt now gEnd))
  /\ ((forall ee,
         triggerEnd = Some ee -> store' ee <> None ->
         getWorldPosition rotate RootEntity fuel store' ee <> None) ->
      exists flags' g', frame = Some (flags', g')).
Proof.
  intros Hp Hs Hx Hy Hz Hf store' frame.
  destruct (setupTriggers_transform store (Some es) triggerEnd triggerDeath
              PlayerEntity pt Hp) as (pt' & Hp' & Ppos & _).
  destruct (setupTriggers_transform store (Some es) triggerEnd triggerDeath
              es ts Hs) as (ts' & Hs' & Spos & Swide).
  destruct (Swide eq_refl) as (Wx & Wy & Wz).
  assert (Hin : isInsideBox (position pt') (position ts') (scale ts') = true).
  { rewrite Ppos, Spos. apply isInsideBox_near_wide; assumption. }
  fold store' in Hp', Hs'.
  assert (Hframe : frame =
    match
      match triggerEnd with
      | Some e =>
        match store' e with
        | Some t =>
          match getWorldPosition rotate RootEntity fuel store' e with
          | Some worldPos =>
            Some (zoneCheck (isInsideBox (position pt') worldPos (scale t))
                    (inTriggerEnd flags) (finishAttempt now)
                    (startAttempt now g))
          | None => None
          end
        | None => Some (inTriggerEnd flags, startAttempt now g)
        end
      | None => Some (inTriggerEnd flags, startAttempt now g)
      end
    with
    | None => None
    | Some (fEnd, g1) =>
      let '(fDeath, g2) :=
        match triggerDeath with
        | Some e =>
          match store' e with
          | Some t =>
            zoneCheck (isInsideBox (position pt') (position t) (scale t))
              (inTriggerDeath flags) (dieAttempt now) g1
          | None => (inTriggerDeath flags, g1)
          end
        | None => (inTriggerDeath flags, g1)
        end in
      Some (mkTriggerFlags true fEnd fDeath, g2)
    end).
  { unfold frame, triggerSystem. rewrite Hp', Hs', Hin, Hf. reflexivity. }
  clearbody frame. subst frame.
  assert (Hdeath : forall fEnd g1,
    exists fDeath g2,
      (let '(fDeath, g2) :=
         match triggerDeath with
         | Some e =>
           match store' e with
           | Some t =>
             zoneCheck (isInsideBox (position pt') (position t) (scale t))
               (inTriggerDeath flags) (dieAttempt now) g1
           | None => (inTriggerDeath flags, g1)
           end
         | None => (inTriggerDeath flags, g1)
         end in
       Some (mkTriggerFlags true fEnd fDeath, g2))
      = Some (mkTriggerFlags true fEnd fDeath, g2)
      /\ (g2 = g1 \/ g2 = dieAttempt now g1)).
  { intros fEnd g1.
    destruct triggerDeath as [ed|]; [destruct (store' ed) as [td|]|].
    - pose proof (zoneCheck_flag
        (isInsideBox (position pt') (position td) (scale td))
        (inTriggerDeath flags) (dieAttempt now) g1) as [_ Hsnd].
      destruct (zoneCheck (isInsideBox (position pt') (position td) (scale td))
                  (inTriggerDeath flags) (dieAttempt now) g1) as [fd g2].
      cbn [snd] in Hsnd. exists fd, g2. split; [reflexivity|].
      rewrite Hsnd.
      destruct (isInsideBox (position pt') (position td) (scale td)
                && negb (inTriggerDeath flags)); [right|left]; reflexivity.
    - exists (inTriggerDeath flags), g1. split; [reflexivity|left; reflexivity].
    - exists (inTriggerDeath flags), g1. split; [reflexivity|left; reflexivity]. }
  assert (Hend : forall wp t,
    exists fEnd g1,
      zoneCheck (isInsideBox (position pt') wp (scale t))
        (inTriggerEnd flags) (finishAttempt now) (startAttempt now g)
      = (fEnd, g1)
      /\ (g1 = startAttempt now g
          \/ g1 = finishAttempt now (startAttempt now g))).
  { intros wp t.
    pose proof (zoneCheck_flag (isInsideBox (position pt') wp (scale t))
      (inTriggerEnd flags) (finishAttempt now) (startAttempt now g))
      as [_ Hsnd].
    destruct (zoneCheck (isInsideBox (position pt') wp (scale t))
                (inTriggerEnd flags) (finishAttempt now) (startAttempt now g))
      as [fe g1].
    cbn [snd] in Hsnd. exists fe, g1. split; [reflexivity|].
    rewrite Hsnd.
    destruct (isInsideBox (position pt') wp (scale t)
              && negb (inTriggerEnd flags)); [right|left]; reflexivity. }
  split.
  - intros flags' g'.
    destruct triggerEnd as [ee|]; [destruct (store' ee) as [te|]|];
      [destruct (getWorldPosition rotate RootEntity fuel store' ee) as [wp|]| |];
      try (intros H; discriminate H).
    + destruct (Hend wp te) as (fEnd & g1 & E1 & Hg1). rewrite E1.
      destruct (Hdeath fEnd g1) as (fDeath & g2 & E2 & Hg2). rewrite E2.
      intros H. injection H as Hfl Hg. subst flags' g'.
      split; [reflexivity|]. exists g1. split; assumption.
    + destruct (Hdeath (inTriggerEnd flags) (startAttempt now g))
        as (fDeath & g2 & E2 & Hg2). rewrite E2.
      intros H. injection H as Hfl Hg. subst flags' g'.
      split; [reflexivity|]. exists (startAttempt now g).
      split; [left; reflexivity|assumption].
    + destruct (Hdeath (inTriggerEnd flags) (startAttempt now g))
        as (fDeath & g2 & E2 & Hg2). rewrite E2.
      intros H. injection H as Hfl Hg. subst flags' g'.
      split; [reflexivity|]. exists (startAttempt now g).
      split; [left; reflexivity|assumption].
  - intros Hfound.
    destruct triggerEnd as [ee|]; [destruct (store' ee) as [te|] eqn:Hee|].
    + destruct (getWorldPosition rotate RootEntity fuel store' ee)
        as [wp|] eqn:Hwp.
      * destruct (Hend wp te) as (fEnd & g1 & E1 & _). rewrite E1.
        destruct (Hdeath fEnd g1) as (fDeath & g2 & E2 & _). rewrite E2.
        eexists. eexists. reflexivity.
      * exfalso. apply (Hfound ee eq_refl); [congruence|exact Hwp].
    + destruct (Hdeath (inTriggerEnd flags) (startAttempt now g))
        as (fDeath & g2 & E2 & _). rewrite E2.
      eexists. eexists. reflexivity.
    + destruct (Hdeath (inTriggerEnd flags) (startAttempt now g))
        as (fDeath & g2 & E2 & _). rewrite E2.
      eexists. eexists. reflexivity.
Qed.

Lemma start_trigger_catches_player_after_setup_witness :
  let store' := setupTriggers demoStore (Some 2%N) (Some 3%N) (Some 5%N) in
  exists flags' g',
    triggerSystem rotateByIdentity 0%N 1%N 3 1000 store'
      (Some 2%N) (Some 3%N) (Some 5%N) (noFlags, initialGame 0)
    = Some (flags', g')
    /\ inTriggerStart flags' = true
    /\ exists gEnd,
         (gEnd = startAttempt 1000 (initialGame 0)
          \/ gEnd = finishAttempt 1000 (startAttempt 1000 (initialGame 0)))
         /\ (g' = gEnd \/ g' = dieAttempt 1000 gEnd).
Proof.
  cbv zeta.
  assert (Hx : (Qabs (10 - 10) <= 1)%Q) by (vm_compute; discriminate).
  assert (Hy : (Qabs (1 - 0) <= 1)%Q) by (vm_compute; discriminate).
  pose proof (start_trigger_catches_player_after_setup rotateByIdentity
                0%N 1%N 3 1000 demoStore 2%N (Some 3%N) (Some 5%N)
                (mkTransform (Vector3_create 10 1 10) identityRotation
                   (Vector3_create 1 1 1) None)
                (mkTransform (Vector3_create 10 0 10) identityRotation
                   (Vector3_create 4 4 4) None)
                noFlags (initialGame 0) eq_refl eq_refl Hx Hy Hx eq_refl)
    as [Hcalled Hcompletes].
  cbv zeta in Hcalled, Hcompletes.
  destruct Hcompletes as (flags' & g' & E).
  { intros ee Hee _. injection Hee as Hee. subst ee.
    vm_compute. discriminate. }
  exists flags', g'. split; [exact E|]. apply Hcalled. exact E.
Defined.

Lemma getWorldPosition_returns_on_finite_chains_witness :
  (exists v, forall fuel, (1 < fuel)%nat ->
     getWorldPosition rotateByIdentity 0%N fuel demoStore 3%N = Some v)
  /\ (exists n, (n < 5)%nat /\ ChainEnds 0%N demoStore 3%N n).
Proof.
  destruct (getWorldPosition_returns_on_finite_chains rotateByIdentity 0%N
              demoStore 3%N) as [Hret Hends].
  split.
  - apply Hret. apply chain_climb with 4%N; [reflexivity|].
    apply chain_stop. reflexivity.
  - eapply (Hends 5%nat). vm_compute. reflexivity.
Defined.

Lemma getWorldPosition_diverges_on_cycles_witness :
  getWorldPosition rotateByIdentity 0%N 1000 demoStore 6%N = None
  /\ getWorldPosition rotateByIdentity 0%N 1000 demoStore 7%N = None.
Proof.
  eapply (getWorldPosition_diverges_on_cycles rotateByIdentity 0%N
            demoStore 6%N 7%N);
    reflexivity || discriminate.
Defined.

Lemma triggerSystem_fires_once_witness :
  exists st',
    triggerSystem rotateByIdentity 0%N 1%N 3 1000 demoStore
      (Some 2%N) (Some 3%N) (Some 5%N) (noFlags, initialGame 0) = Some st'
    /\ triggerSystem rotateByIdentity 0%N 1%N 3 2000 demoStore
         (Some 2%N) (Some 3%N) (Some 5%N) st' = Some st'.
Proof.
  destruct (triggerSystem rotateByIdentity 0%N 1%N 3 1000 demoStore
              (Some 2%N) (Some 3%N) (Some 5%N) (noFlags, initialGame 0))
    as [st'|] eqn:E.
  - exists st'. split; [reflexivity|].
    exact (triggerSystem_fires_once rotateByIdentity 0%N 1%N 3 1000 2000
             demoStore (Some 2%N) (Some 3%N) (Some 5%N)
             (noFlags, initialGame 0) st' E).
  - vm_compute in E. discriminate E.
Defined.

Lemma start_and_finish_in_one_frame_witness :
  exists flags' g',
    triggerSystem rotateByIdentity 0%N 1%N 3 1000 demoStore
      (Some 2%N) (Some 3%N) (Some 5%N) (noFlags, initialGame 0)
    = Some (flags', g')
    /\ inTriggerStart flags' = true /\ inTriggerEnd flags' = true
    /\ attemptState g' = FINISHED
    /\ attemptFinishTime g' = 0%Q
    /\ roundFinishers g' = roundFinishers (initialGame 0) + 1.
Proof.
  eapply (start_and_finish_in_one_frame rotateByIdentity 0%N 1%N 3 1000
            demoStore 2%N 3%N (Some 5%N)).
  - reflexivity.
  - reflexivity.
  - reflexivity.
  - vm_compute. reflexivity.
  - vm_compute. reflexivity.
  - vm_compute. reflexivity.
  - reflexivity.
  - reflexivity.
  - reflexivity.
  - discriminate.
Defined.

